(** * knowme-ai backend: resume tools, session memory and chat endpoints

    A shallow embedding of [backend/tools/resume_tools.py],
    [backend/agents/resume_agent.py] and [backend/api/chat.py] (with the
    validation handler of [backend/main.py]), followed by the properties
    proved about them.

    Conventions.
    - A Python [str] is a [string] whose characters are the code points
      U+0000..U+00FF; [lower], [strip], [in] and [repr] are written out
      for that range.
    - A JSON object is an association list in file order ([pydict]); a
      key that is absent and a key whose value is [null] are different
      things, as they are for the code.
    - A tool returns [Ok text] or raises: [Raise e]. *)

From Stdlib Require Import String Ascii List Bool NArith Lia.
From stdpp Require Import gmap strings.
Import ListNotations.
Local Open Scope string_scope.

(* ===================================================================== *)
(** ** Python strings                                                     *)
(* ===================================================================== *)

Module PyStr.

Definition code (c : ascii) : N := N_of_ascii c.

Definition dquote : ascii := "034"%char.
Definition squote : ascii := "039"%char.
Definition backslash : ascii := "092"%char.
Definition tab : ascii := "009"%char.
Definition newline : ascii := "010"%char.
Definition creturn : ascii := "013"%char.

(** [nl] is the one-character string written [\n] in the source. *)
Definition nl : string := String newline EmptyString.

Definition in_range (lo hi n : N) : bool := ((lo <=? n) && (n <=? hi))%N.

(** Upper-case letters below U+0100: A-Z, and U+00C0..U+00DE without the
    multiplication sign U+00D7. *)
Definition isupper (c : ascii) : bool :=
  in_range 65 90 (code c)
  || (in_range 192 222 (code c) && negb (code c =? 215)%N).

Definition lower_char (c : ascii) : ascii :=
  if isupper c then ascii_of_N (code c + 32) else c.

(** [s.lower()] *)
Fixpoint lower (s : string) : string :=
  match s with
  | EmptyString => EmptyString
  | String c s' => String (lower_char c) (lower s')
  end.

(** [c.isspace()] below U+0100. *)
Definition isspace (c : ascii) : bool :=
  in_range 9 13 (code c) || in_range 28 32 (code c)
  || (code c =? 133)%N || (code c =? 160)%N.

Fixpoint lstrip (s : string) : string :=
  match s with
  | EmptyString => EmptyString
  | String c s' => if isspace c then lstrip s' else s
  end.

Fixpoint rstrip (s : string) : string :=
  match s with
  | EmptyString => EmptyString
  | String c s' =>
      match rstrip s' with
      | EmptyString => if isspace c then EmptyString else String c EmptyString
      | r => String c r
      end
  end.

(** [s.strip()] *)
Definition strip (s : string) : string := rstrip (lstrip s).

(** Truth value of a string: [bool(s)]. *)
Definition nonempty (s : string) : bool :=
  match s with EmptyString => false | String _ _ => true end.

(** [sub in s] *)
Fixpoint contains (sub s : string) : bool :=
  if String.prefix sub s then true
  else match s with
       | EmptyString => false
       | String _ s' => contains sub s'
       end.

(** [sep.join(parts)] is [String.concat sep parts]. *)
Definition join (sep : string) (parts : list string) : string :=
  String.concat sep parts.

(** Iterating over a string yields its one-character substrings. *)
Fixpoint chars (s : string) : list string :=
  match s with
  | EmptyString => []
  | String c s' => String c EmptyString :: chars s'
  end.

Fixpoint has_char (c : ascii) (s : string) : bool :=
  match s with
  | EmptyString => false
  | String d s' => Ascii.eqb c d || has_char c s'
  end.

(** [c.isprintable()] below U+0100. *)
Definition isprintable (c : ascii) : bool :=
  in_range 32 126 (code c) || in_range 161 172 (code c)
  || in_range 174 255 (code c).

Definition hexdigit (n : N) : ascii :=
  if (n <? 10)%N then ascii_of_N (48 + n) else ascii_of_N (87 + n).

(** The text [repr] writes for one character inside the quotes [quote]. *)
Definition repr_char (quote c : ascii) : string :=
  if Ascii.eqb c quote || Ascii.eqb c backslash
  then String backslash (String c EmptyString)
  else if Ascii.eqb c tab then String backslash "t"
  else if Ascii.eqb c newline then String backslash "n"
  else if Ascii.eqb c creturn then String backslash "r"
  else if isprintable c then String c EmptyString
  else String backslash
         (String "x"%char
            (String (hexdigit (code c / 16))
               (String (hexdigit (code c mod 16)) EmptyString))).

Fixpoint repr_body (quote : ascii) (s : string) : string :=
  match s with
  | EmptyString => EmptyString
  | String c s' => repr_char quote c ++ repr_body quote s'
  end.

(** Double quotes are chosen only when the string has a single quote and
    no double quote. *)
Definition repr_quote (s : string) : ascii :=
  if has_char squote s && negb (has_char dquote s) then dquote else squote.

(** [repr(s)] for a string [s]. *)
Definition repr (s : string) : string :=
  let q := repr_quote s in
  String q (repr_body q s ++ String q EmptyString).

(** [str(l)] for a list of strings [l]. *)
Definition str_list (l : list string) : string :=
  "[" ++ join ", " (map repr l) ++ "]".

End PyStr.

Import PyStr.

(* ===================================================================== *)
(** ** Exceptions and JSON values                                         *)
(* ===================================================================== *)

(** The exceptions the tools can raise on a parsed document. *)
Inductive exn : Type :=
| KeyError (key : string)
| AttributeError (attribute : string)
| TypeError (operation : string).

Inductive result (A : Type) : Type :=
| Ok (a : A)
| Raise (e : exn).
Arguments Ok {A} a.
Arguments Raise {A} e.

Definition bind {A B : Type} (m : result A) (k : A -> result B) : result B :=
  match m with
  | Ok a => k a
  | Raise e => Raise e
  end.

Notation "'try!' x ':=' m 'in' k" := (bind m (fun x => k))
  (at level 10, x name, m at level 100, k at level 200).

(** [a or b] on computations that may raise: [b] runs only when [a] is
    false. *)
Definition orM (a b : result bool) : result bool :=
  try! x := a in if x then Ok true else b.

(** [any(f(x) for x in l)]: stops at the first true value. *)
Fixpoint anyM {A : Type} (f : A -> result bool) (l : list A) : result bool :=
  match l with
  | [] => Ok false
  | x :: l' => orM (f x) (anyM f l')
  end.

(** A JSON number (or [true]/[false]), seen through the two observations
    the tools make of one: its truth value and its [str()] text. *)
Record pynum : Type := { num_str : string; num_truthy : bool }.

(** A value stored under a key of a personal-info, education, experience
    or project object. *)
Inductive pyval : Type :=
| VNone
| VNum (n : pynum)
| VStr (s : string)
| VList (l : list string).

(** A JSON object, keys in file order. *)
Definition pydict : Type := list (string * pyval).

Module Py.

Fixpoint lookup (d : pydict) (key : string) : option pyval :=
  match d with
  | [] => None
  | (k, v) :: d' => if String.eqb k key then Some v else lookup d' key
  end.

(** [d[key]] *)
Definition getitem (d : pydict) (key : string) : result pyval :=
  match lookup d key with
  | Some v => Ok v
  | None => Raise (KeyError key)
  end.

(** [d.get(key, dflt)] *)
Definition get_default (d : pydict) (key : string) (dflt : pyval) : pyval :=
  match lookup d key with
  | Some v => v
  | None => dflt
  end.

(** [d.get(key)] *)
Definition get (d : pydict) (key : string) : pyval := get_default d key VNone.

(** [d.values()] *)
Definition values (d : pydict) : list pyval := map snd d.

(** [bool(v)] *)
Definition truthy (v : pyval) : bool :=
  match v with
  | VNone => false
  | VNum n => num_truthy n
  | VStr s => nonempty s
  | VList l => match l with [] => false | _ :: _ => true end
  end.

(** [str(v)], also what an f-string field [{v}] writes. *)
Definition str (v : pyval) : string :=
  match v with
  | VNone => "None"
  | VNum n => num_str n
  | VStr s => s
  | VList l => str_list l
  end.

(** [v.lower()] *)
Definition lower (v : pyval) : result string :=
  match v with
  | VStr s => Ok (PyStr.lower s)
  | _ => Raise (AttributeError "lower")
  end.

(** The items a [for] loop, [any(...)] or [join] draws from [v]. *)
Definition iter (v : pyval) : result (list string) :=
  match v with
  | VList l => Ok l
  | VStr s => Ok (chars s)
  | _ => Raise (TypeError "iter")
  end.

(** [sep.join(v)] *)
Definition join (sep : string) (v : pyval) : result string :=
  try! items := iter v in Ok (PyStr.join sep items).

(** [a or b] on values. *)
Definition or_else (a b : pyval) : pyval := if truthy a then a else b.

(** [isinstance(v, (str, list))] *)
Definition is_str_or_list (v : pyval) : bool :=
  match v with
  | VStr _ | VList _ => true
  | _ => false
  end.

(** [results.append(x)] *)
Definition append {A : Type} (l : list A) (x : A) : list A := app l [x].

(** [x not in results] for a list of strings. *)
Definition not_in (x : string) (l : list string) : bool :=
  negb (existsb (String.eqb x) l).

End Py.

(* ===================================================================== *)
(** ** The resume document                                                *)
(* ===================================================================== *)

(** What [load_resume_data] returns.  The five sections are present with
    the container types of [models/resume.py]; [summary] is [None] when
    the key is absent. *)
Record ResumeData : Type := {
  personal_info : pydict;
  summary : option pyval;
  education : list pydict;
  experience : list pydict;
  skills : list (string * list string);
  projects : list pydict
}.

(* ===================================================================== *)
(** ** Resume tools ([backend/tools/resume_tools.py])                     *)
(* ===================================================================== *)

Module Tools.
Import Py.

(** [for x in l: out.append(f(x))] *)
Fixpoint mapM {A B : Type} (f : A -> result B) (l : list A) : result (list B) :=
  match l with
  | [] => Ok []
  | x :: l' => try! y := f x in try! ys := mapM f l' in Ok (y :: ys)
  end.

(** [for x in l: if keep(x): out.append(x)] *)
Fixpoint filterM {A : Type} (keep : A -> result bool) (l : list A)
  : result (list A) :=
  match l with
  | [] => Ok []
  | x :: l' =>
      try! b := keep x in
      try! rest := filterM keep l' in
      Ok (if b then x :: rest else rest)
  end.

(** [filtered if filtered else everything] *)
Definition or_all {A : Type} (filtered everything : list A) : list A :=
  match filtered with
  | [] => everything
  | _ :: _ => filtered
  end.

(** [query and query.strip()] as a condition. *)
Definition given (query : option string) : bool :=
  match query with
  | None => false
  | Some q => nonempty q && nonempty (strip q)
  end.

(** [query_lower in d[key].lower()] *)
Definition key_contains (query_lower : string) (d : pydict) (key : string)
  : result bool :=
  try! v := getitem d key in
  try! s := lower v in
  Ok (contains query_lower s).

(** [any(query_lower in tech.lower() for tech in v)] *)
Definition any_contains (query_lower : string) (v : pyval) : result bool :=
  try! items := iter v in
  Ok (existsb (fun tech => contains query_lower (PyStr.lower tech)) items).

(** [if d.get(key): info.append(f"{label}{d[key]}")] *)
Definition opt_line (d : pydict) (key label : string) (info : list string)
  : result (list string) :=
  if truthy (get d key)
  then try! v := getitem d key in Ok (append info (label ++ str v))
  else Ok info.

(** [if d.get(key): info.append(f"{label}{', '.join(d[key])}")] *)
Definition opt_joined (d : pydict) (key label : string) (info : list string)
  : result (list string) :=
  if truthy (get d key)
  then try! v := getitem d key in
       try! joined := join ", " v in
       Ok (append info (label ++ joined))
  else Ok info.

(** [resume_data.get("summary", "")] *)
Definition summary_of (resume_data : ResumeData) : pyval :=
  match summary resume_data with
  | Some v => v
  | None => VStr ""
  end.

(** *** get_personal_info *)

Definition get_personal_info (query : option string) (resume_data : ResumeData)
  : result string :=
  let personal_info := personal_info resume_data in
  let summary := summary_of resume_data in
  let result := [] in
  try! name := getitem personal_info "name" in
  let result := append result ("Name: " ++ str name) in
  let result :=
    append result
      ("Location: "
         ++ str (get_default personal_info "location" (VStr "Not specified"))) in
  try! email := getitem personal_info "email" in
  let result := append result ("Email: " ++ str email) in
  try! result := opt_line personal_info "phone" "Phone: " result in
  try! result := opt_line personal_info "linkedin" "LinkedIn: " result in
  try! result := opt_line personal_info "github" "GitHub: " result in
  try! result := opt_line personal_info "website" "Website: " result in
  let result :=
    if truthy summary
    then append result (nl ++ "Professional Summary:" ++ nl ++ str summary)
    else result in
  Ok (PyStr.join nl result).

(** *** get_education *)

Definition edu_matches (query_lower : string) (edu : pydict) : result bool :=
  orM (key_contains query_lower edu "institution")
    (orM (key_contains query_lower edu "degree")
       (key_contains query_lower edu "field")).

Definition render_edu (edu : pydict) : result string :=
  try! institution := getitem edu "institution" in
  try! degree := getitem edu "degree" in
  try! field := getitem edu "field" in
  try! graduation_date := getitem edu "graduation_date" in
  let edu_info :=
    [ "Institution: " ++ str institution;
      "Degree: " ++ str degree ++ " in " ++ str field;
      "Graduation: " ++ str graduation_date ] in
  try! edu_info := opt_line edu "gpa" "GPA: " edu_info in
  try! edu_info := opt_joined edu "achievements" "Achievements: " edu_info in
  Ok (PyStr.join nl edu_info).

Definition render_education (education_list : list pydict) : result string :=
  try! result := mapM render_edu education_list in
  Ok (PyStr.join (nl ++ nl) result).

Definition get_education (query : option string) (resume_data : ResumeData)
  : result string :=
  let education_list := education resume_data in
  try! education_list :=
    match query with
    | Some q =>
        if given query then
          let query_lower := PyStr.lower q in
          try! filtered_education :=
            filterM (edu_matches query_lower) education_list in
          Ok (or_all filtered_education education_list)
        else Ok education_list
    | None => Ok education_list
    end in
  render_education education_list.

(** *** get_experience *)

Definition exp_matches (query_lower : string) (exp : pydict) : result bool :=
  orM (key_contains query_lower exp "company")
    (orM (key_contains query_lower exp "position")
       (any_contains query_lower (get_default exp "technologies" (VList [])))).

(** The three characters the source writes before each accomplishment
    (line 169): U+00E2 and U+00A2 are one character each; U+20AC lies
    outside the modelled range and is kept as its three UTF-8 bytes. *)
Definition bullet : string :=
  String "226"
    (String "226" (String "130" (String "172"
       (String "162" EmptyString)))).

Definition render_exp (exp : pydict) : result string :=
  try! company := getitem exp "company" in
  try! position := getitem exp "position" in
  try! start_date := getitem exp "start_date" in
  try! end_date := getitem exp "end_date" in
  let exp_info :=
    [ "Company: " ++ str company;
      "Position: " ++ str position;
      "Duration: " ++ str start_date ++ " - "
        ++ str (or_else end_date (VStr "Present")) ] in
  try! exp_info := opt_line exp "location" "Location: " exp_info in
  let exp_info := append exp_info "Key Accomplishments:" in
  try! description := getitem exp "description" in
  try! bullets := iter description in
  let exp_info :=
    fold_left (fun info desc => append info (bullet ++ " " ++ desc))
      bullets exp_info in
  try! exp_info := opt_joined exp "technologies" "Technologies: " exp_info in
  Ok (PyStr.join nl exp_info).

Definition render_experience (experience_list : list pydict) : result string :=
  try! result := mapM render_exp experience_list in
  Ok (PyStr.join (nl ++ nl) result).

Definition get_experience (query : option string) (resume_data : ResumeData)
  : result string :=
  let experience_list := experience resume_data in
  try! experience_list :=
    match query with
    | Some q =>
        if given query then
          let query_lower := PyStr.lower q in
          try! filtered_experience :=
            filterM (exp_matches query_lower) experience_list in
          Ok (or_all filtered_experience experience_list)
        else Ok experience_list
    | None => Ok experience_list
    end in
  render_experience experience_list.

(** *** get_skills *)

(** [d[key] = v] on an insertion-ordered dict. *)
Fixpoint dict_set {V : Type} (d : list (string * V)) (key : string) (v : V)
  : list (string * V) :=
  match d with
  | [] => [(key, v)]
  | (k, v') :: d' =>
      if String.eqb k key then (k, v) :: d' else (k, v') :: dict_set d' key v
  end.

Definition category_matches (category_lower : string)
  (item : string * list string) : bool :=
  contains category_lower (PyStr.lower (fst item)).

(** The loop that fills [filtered_skills]. *)
Definition filter_skills (category_lower : string)
  (skills_dict : list (string * list string)) : list (string * list string) :=
  fold_left
    (fun filtered_skills item =>
       if category_matches category_lower item
       then dict_set filtered_skills (fst item) (snd item)
       else filtered_skills)
    skills_dict [].

Definition render_skill (item : string * list string) : string :=
  fst item ++ ": " ++ PyStr.join ", " (snd item).

Definition render_skills (skills_dict : list (string * list string)) : string :=
  PyStr.join nl (map render_skill skills_dict).

Definition get_skills (category : option string) (resume_data : ResumeData)
  : result string :=
  let skills_dict := skills resume_data in
  let skills_dict :=
    match category with
    | Some c =>
        if given category then
          let category_lower := PyStr.lower c in
          let filtered_skills := filter_skills category_lower skills_dict in
          or_all filtered_skills skills_dict
        else skills_dict
    | None => skills_dict
    end in
  Ok (render_skills skills_dict).

(** *** get_projects *)

Definition project_matches (query_lower : string) (project : pydict)
  : result bool :=
  orM (key_contains query_lower project "name")
    (orM (key_contains query_lower project "description")
       (try! technologies := getitem project "technologies" in
        any_contains query_lower technologies)).

Definition render_project (project : pydict) : result string :=
  try! name := getitem project "name" in
  try! description := getitem project "description" in
  try! technologies := getitem project "technologies" in
  try! joined := join ", " technologies in
  let project_info :=
    [ "Project: " ++ str name;
      "Description: " ++ str description;
      "Technologies: " ++ joined ] in
  try! project_info := opt_line project "url" "Live Demo: " project_info in
  try! project_info := opt_line project "github_url" "GitHub: " project_info in
  try! project_info :=
    (if truthy (get project "start_date") && truthy (get project "end_date")
     then try! start_date := getitem project "start_date" in
          try! end_date := getitem project "end_date" in
          Ok (append project_info
                ("Timeline: " ++ str start_date ++ " - " ++ str end_date))
     else Ok project_info) in
  Ok (PyStr.join nl project_info).

Definition render_projects (projects_list : list pydict) : result string :=
  try! result := mapM render_project projects_list in
  Ok (PyStr.join (nl ++ nl) result).

Definition get_projects (query : option string) (resume_data : ResumeData)
  : result string :=
  let projects_list := projects resume_data in
  try! projects_list :=
    match query with
    | Some q =>
        if given query then
          let query_lower := PyStr.lower q in
          try! filtered_projects :=
            filterM (project_matches query_lower) projects_list in
          Ok (or_all filtered_projects projects_list)
        else Ok projects_list
    | None => Ok projects_list
    end in
  render_projects projects_list.

(** *** search_resume *)

(** [keyword_lower in str(value).lower()] *)
Definition value_hit (keyword_lower : string) (value : pyval) : bool :=
  contains keyword_lower (PyStr.lower (str value)).

(** The condition of the personal-info block. *)
Definition personal_hit (keyword_lower : string) (resume_data : ResumeData)
  : result bool :=
  orM (Ok (existsb (value_hit keyword_lower)
             (values (personal_info resume_data))))
    (try! s := lower (summary_of resume_data) in
     Ok (contains keyword_lower s)).

(** [any(... for value in edu.values() if isinstance(value, (str, list)))] *)
Definition edu_hit (keyword_lower : string) (edu : pydict) : bool :=
  existsb (value_hit keyword_lower) (List.filter is_str_or_list (values edu)).

(** [" ".join([str(value) for value in d.values()
               if isinstance(value, (str, list))])] *)
Definition entry_text (d : pydict) : string :=
  PyStr.join " " (map str (List.filter is_str_or_list (values d))).

(** The condition of the experience loop and of the projects loop. *)
Definition entry_hit (keyword_lower : string) (d : pydict) : bool :=
  contains keyword_lower (PyStr.lower (entry_text d)).

Definition skill_hit (keyword_lower : string) (item : string * list string)
  : bool :=
  contains keyword_lower (PyStr.lower (fst item))
  || existsb (fun skill => contains keyword_lower (PyStr.lower skill))
       (snd item).

(** One [for entry in entries: if hit: (if header not in results: append
    header and rendering); break] loop. *)
Fixpoint scan_section {A : Type} (hit : A -> bool) (entries : list A)
  (header : string) (rendering : result string) (results : list string)
  : result (list string) :=
  match entries with
  | [] => Ok results
  | entry :: rest =>
      if hit entry then
        if not_in header results
        then try! text := rendering in Ok (append (append results header) text)
        else Ok results
      else scan_section hit rest header rendering results
  end.

Definition prompt_for_keyword : string :=
  "Please provide a keyword to search for.".

Definition not_found (keyword : string) : string :=
  "No information found related to '" ++ keyword ++ "' in the resume.".

Definition search_resume (keyword : string) (resume_data : ResumeData)
  : result string :=
  if negb (nonempty keyword) || negb (nonempty (strip keyword))
  then Ok prompt_for_keyword
  else
    let keyword_lower := PyStr.lower keyword in
    let results := [] in
    try! hit := personal_hit keyword_lower resume_data in
    try! results :=
      (if hit
       then try! text := get_personal_info None resume_data in
            Ok (append (append results "PERSONAL INFO:") text)
       else Ok results) in
    try! results :=
      scan_section (edu_hit keyword_lower) (education resume_data)
        "EDUCATION:" (get_education None resume_data) results in
    try! results :=
      scan_section (entry_hit keyword_lower) (experience resume_data)
        "EXPERIENCE:" (get_experience None resume_data) results in
    try! results :=
      scan_section (skill_hit keyword_lower) (skills resume_data)
        "SKILLS:" (get_skills None resume_data) results in
    try! results :=
      scan_section (entry_hit keyword_lower) (projects resume_data)
        "PROJECTS:" (get_projects None resume_data) results in
    match results with
    | [] => Ok (not_found keyword)
    | _ :: _ => Ok (PyStr.join (nl ++ nl) results)
    end.

End Tools.

(** The document of [tests/test_resume_tools.py]. *)
Definition SAMPLE_RESUME_DATA : ResumeData := {|
  personal_info :=
    [ ("name", VStr "Test User");
      ("email", VStr "test@example.com");
      ("location", VStr "Test City") ];
  summary := Some (VStr "Test professional summary");
  education :=
    [ [ ("institution", VStr "Test University");
        ("degree", VStr "Bachelor of Science");
        ("field", VStr "Computer Science");
        ("graduation_date", VStr "2020-05");
        ("gpa", VNum {| num_str := "3.8"; num_truthy := true |}) ] ];
  experience :=
    [ [ ("company", VStr "Test Corp");
        ("position", VStr "Software Engineer");
        ("start_date", VStr "2020-06");
        ("end_date", VNone);
        ("description", VList ["Built test applications"; "Led team projects"]);
        ("technologies", VList ["Python"; "JavaScript"]) ] ];
  skills :=
    [ ("Programming Languages", ["Python"; "JavaScript"]);
      ("Frameworks", ["FastAPI"; "React"]) ];
  projects :=
    [ [ ("name", VStr "Test Project");
        ("description", VStr "A test project for demonstration");
        ("technologies", VList ["Python"; "FastAPI"]);
        ("url", VStr "https://test-project.com") ] ]
|}.

(* ===================================================================== *)
(** ** The conversational agent ([backend/agents/resume_agent.py])        *)
(* ===================================================================== *)

Module Agent.

(** A transcript entry: [HumanMessage] or [AIMessage]. *)
Inductive message : Type :=
| HumanMessage (content : string)
| AIMessage (content : string).

Definition content (msg : message) : string :=
  match msg with
  | HumanMessage c => c
  | AIMessage c => c
  end.

(** What awaiting [agent_executor.ainvoke] gives: a result dict, with or
    without the key [output], or an exception [e] with [str(e) = detail]. *)
Inductive invoke_outcome : Type :=
| Returned (output : option string)
| Raised (detail : string).

(** What iterating [agent_executor.astream] gives: the chunks it
    produces, each with or without the key [output], and then either the
    end of the stream or an exception. *)
Record stream_outcome : Type := {
  chunks : list (option string);
  failure : option string
}.

(** The external agent: both calls receive [input] and [chat_history]. *)
Record AgentExecutor : Type := {
  ainvoke : string -> list message -> invoke_outcome;
  astream : string -> list message -> stream_outcome
}.

(** [self]: the executor and [memory_store], the table from session id to
    the message list of that session's memory. *)
Record ResumeAgent : Type := {
  agent_executor : AgentExecutor;
  memory_store : gmap string (list message)
}.

Definition with_store (self : ResumeAgent) (store : gmap string (list message))
  : ResumeAgent :=
  {| agent_executor := agent_executor self; memory_store := store |}.

Definition _get_or_create_memory (self : ResumeAgent) (session_id : string)
  : list message * ResumeAgent :=
  match memory_store self !! session_id with
  | Some memory => (memory, self)
  | None => ([], with_store self (<[session_id := []]> (memory_store self)))
  end.

(** [memory.chat_memory.add_user_message] / [add_ai_message] on the
    memory object stored under [session_id]. *)
Definition add_message (self : ResumeAgent) (session_id : string)
  (msg : message) : ResumeAgent :=
  with_store self
    (alter (fun messages => app messages [msg]) session_id (memory_store self)).

Definition chat_error_msg (detail : string) : string :=
  "I apologize, but I encountered an error processing your question: "
    ++ detail
    ++ ". Please try rephrasing your question or ask about a specific aspect of the resume.".

(** [str(KeyError('output'))], raised by [result["output"]]. *)
Definition missing_output_detail : string := "'output'".

Definition chat (self : ResumeAgent) (message session_id : string)
  : string * ResumeAgent :=
  let '(memory, self) := _get_or_create_memory self session_id in
  let chat_history := memory in
  let on_error detail :=
    let error_msg := chat_error_msg detail in
    let self := add_message self session_id (HumanMessage message) in
    let self := add_message self session_id (AIMessage error_msg) in
    (error_msg, self) in
  match ainvoke (agent_executor self) message chat_history with
  | Returned (Some response) =>
      let self := add_message self session_id (HumanMessage message) in
      let self := add_message self session_id (AIMessage response) in
      (response, self)
  | Returned None => on_error missing_output_detail
  | Raised detail => on_error detail
  end.

Definition stream_error_msg (detail : string) : string :=
  "I encountered an error: " ++ detail ++ ". Please try again.".

(** [if "output" in chunk: response_chunks.append(chunk["output"])] over
    the chunks received. *)
Fixpoint outputs (received : list (option string)) : list string :=
  match received with
  | [] => []
  | Some content :: rest => content :: outputs rest
  | None :: rest => outputs rest
  end.

(** The generator run to its end: the fragments it yields, in order, and
    the agent afterwards. *)
Definition stream_chat (self : ResumeAgent) (message session_id : string)
  : list string * ResumeAgent :=
  let '(memory, self) := _get_or_create_memory self session_id in
  let chat_history := memory in
  let stream := astream (agent_executor self) message chat_history in
  let response_chunks := outputs (chunks stream) in
  match failure stream with
  | None =>
      let full_response := PyStr.join "" response_chunks in
      let self := add_message self session_id (HumanMessage message) in
      let self := add_message self session_id (AIMessage full_response) in
      (response_chunks, self)
  | Some detail =>
      let error_msg := stream_error_msg detail in
      let self := add_message self session_id (HumanMessage message) in
      let self := add_message self session_id (AIMessage error_msg) in
      (app response_chunks [error_msg], self)
  end.

Definition clear_memory (self : ResumeAgent) (session_id : string)
  : ResumeAgent :=
  match memory_store self !! session_id with
  | Some _ => with_store self (delete session_id (memory_store self))
  | None => self
  end.

(** One dict of the list [get_session_history] returns.  The transcript
    messages carry no [timestamp] attribute, so the field is [None]. *)
Record history_entry : Type := {
  entry_type : string;
  entry_content : string;
  entry_timestamp : option string
}.

Definition history_entry_of (msg : message) : history_entry :=
  {| entry_type := match msg with HumanMessage _ => "human" | AIMessage _ => "ai" end;
     entry_content := content msg;
     entry_timestamp := None |}.

Definition get_session_history (self : ResumeAgent) (session_id : string)
  : list history_entry :=
  match memory_store self !! session_id with
  | None => []
  | Some memory => map history_entry_of memory
  end.

End Agent.

(* ===================================================================== *)
(** ** The chat endpoints ([backend/api/chat.py], [backend/main.py])      *)
(* ===================================================================== *)

Module Api.
Import Agent.

(** A value of the request body, as far as validation looks at it. *)
Inductive json : Type :=
| JNull
| JString (s : string)
| JOther.

(** [ChatMessage] without its [timestamp], which no handler reads. *)
Record ChatMessage : Type := {
  message : string;
  session_id : option string;
  origin : option string
}.

(** One entry of [exc.errors()]. *)
Record validation_error : Type := {
  loc : list string;
  msg : string
}.

Inductive response_content : Type :=
| ChatResponse (response : string) (sources : list string)
    (session_id : option string)
| Detail (detail : string)
| ValidationFailure (error message : string)
    (details : option (list validation_error)).

Record JSONResponse : Type := {
  status_code : N;
  body : response_content
}.

Record ChatStreamChunk : Type := {
  chunk_content : string;
  is_complete : bool;
  chunk_sources : option (list string)
}.

Section Endpoints.

(** [settings.debug] *)
Variable debug : bool.

(** Whether the framework accepts a body value as a [datetime]. *)
Variable datetime_ok : json -> bool.

Fixpoint field (body : list (string * json)) (key : string) : option json :=
  match body with
  | [] => None
  | (k, v) :: rest => if String.eqb k key then Some v else field rest key
  end.

Definition missing (key : string) : validation_error :=
  {| loc := ["body"; key]; msg := "Field required" |}.

Definition not_a_string (key : string) : validation_error :=
  {| loc := ["body"; key]; msg := "Input should be a valid string" |}.

(** The framework's text for a rejected [datetime] goes on with a reason
    that depends on the input; only its fixed opening is kept. *)
Definition not_a_datetime (key : string) : validation_error :=
  {| loc := ["body"; key]; msg := "Input should be a valid datetime" |}.

(** A required [str] field. *)
Definition required_str (body : list (string * json)) (key : string)
  : string + list validation_error :=
  match field body key with
  | None => inr [missing key]
  | Some (JString s) => inl s
  | Some _ => inr [not_a_string key]
  end.

(** An [Optional[str]] field with default [None]. *)
Definition optional_str (body : list (string * json)) (key : string)
  : option string + list validation_error :=
  match field body key with
  | None | Some JNull => inl None
  | Some (JString s) => inl (Some s)
  | Some JOther => inr [not_a_string key]
  end.

(** A [datetime] field with a default. *)
Definition defaulted_datetime (body : list (string * json)) (key : string)
  : list validation_error :=
  match field body key with
  | None => []
  | Some v => if datetime_ok v then [] else [not_a_datetime key]
  end.

Definition errors_of {A : Type} (r : A + list validation_error)
  : list validation_error :=
  match r with
  | inl _ => []
  | inr errs => errs
  end.

(** The framework's validation of a request body against [ChatMessage]:
    every field is checked, in declaration order, and all errors are
    reported together. *)
Definition validate (body : list (string * json))
  : ChatMessage + list validation_error :=
  let m := required_str body "message" in
  let s := optional_str body "session_id" in
  let o := optional_str body "origin" in
  let t := defaulted_datetime body "timestamp" in
  match m, s, o, t with
  | inl m, inl s, inl o, [] =>
      inl {| message := m; session_id := s; origin := o |}
  | _, _, _, _ => inr (app (errors_of m) (app (errors_of s) (app (errors_of o) t)))
  end.

(** [validation_exception_handler] of [main.py]. *)
Definition validation_exception_handler (errors : list validation_error)
  : JSONResponse :=
  let field :=
    match errors with
    | first_error :: _ => PyStr.join "." (loc first_error)
    | [] => "unknown"
    end in
  let msg :=
    match errors with
    | first_error :: _ => msg first_error
    | [] => "Validation error"
    end in
  {| status_code := 422;
     body := ValidationFailure "Validation Error"
               ("'" ++ field ++ "'. " ++ msg)
               (if debug then Some errors else None) |}.

(** [chat_message.session_id or str(uuid.uuid4())] *)
Definition session_or (session_id : option string) (uuid4 : string) : string :=
  match session_id with
  | Some s => if nonempty s then s else uuid4
  | None => uuid4
  end.

(** [chat_endpoint]; [uuid4] is the identifier [uuid.uuid4()] would
    produce, [agent] the instance [get_resume_agent()] returns. *)
Definition chat_endpoint (chat_message : ChatMessage) (uuid4 : string)
  (agent : ResumeAgent) : JSONResponse * ResumeAgent :=
  if negb (nonempty (message chat_message))
  then ({| status_code := 400; body := Detail "Message field is required" |},
        agent)
  else
    let session_id := session_or (session_id chat_message) uuid4 in
    let '(response, agent) := chat agent (message chat_message) session_id in
    ({| status_code := 200;
        body := ChatResponse response ["resume_data"] (Some session_id) |},
     agent).

(** [POST /api/chat]: the body is validated first; a body that fails
    goes to the validation handler, any other to [chat_endpoint]. *)
Definition post_chat (request_body : list (string * json)) (uuid4 : string)
  (agent : ResumeAgent) : JSONResponse * ResumeAgent :=
  match validate request_body with
  | inr errors => (validation_exception_handler errors, agent)
  | inl chat_message => chat_endpoint chat_message uuid4 agent
  end.

(** [stream_chat_response]: the records it serialises, in order. *)
Definition stream_chat_response (message session_id : string)
  (agent : ResumeAgent) : list ChatStreamChunk * ResumeAgent :=
  let '(fragments, agent) := stream_chat agent message session_id in
  (app
     (map (fun chunk =>
             {| chunk_content := chunk; is_complete := false;
                chunk_sources := None |})
        fragments)
     [ {| chunk_content := ""; is_complete := true;
          chunk_sources := Some ["resume_data"] |} ],
   agent).

End Endpoints.

End Api.

(* ===================================================================== *)
(** ** Documents that follow the schema of [models/resume.py]             *)
(* ===================================================================== *)

Module Schema.
Import Py.

Definition has_str (d : pydict) (key : string) : bool :=
  match lookup d key with
  | Some (VStr _) => true
  | _ => false
  end.

(** An optional list field: absent, [null] or a list. *)
Definition opt_list (d : pydict) (key : string) : bool :=
  match lookup d key with
  | None | Some VNone | Some (VList _) => true
  | _ => false
  end.

(** [Education]: four required strings, optional [gpa] (any number) and
    optional [achievements]. *)
Definition valid_edu (edu : pydict) : bool :=
  has_str edu "institution" && has_str edu "degree" && has_str edu "field"
  && has_str edu "graduation_date" && opt_list edu "achievements".

Definition valid_education (resume_data : ResumeData) : bool :=
  forallb valid_edu (education resume_data).

(** The keys of a dict are pairwise different. *)
Fixpoint distinct_keys {V : Type} (d : list (string * V)) : bool :=
  match d with
  | [] => true
  | (k, _) :: d' => negb (existsb (fun item => String.eqb (fst item) k) d')
                    && distinct_keys d'
  end.

(** [summary] is absent or a string ([Optional[str]] without [null]). *)
Definition summary_is_text (resume_data : ResumeData) : bool :=
  match summary resume_data with
  | None | Some (VStr _) => true
  | Some _ => false
  end.

End Schema.

(* ===================================================================== *)
(** ** The accessors' contract, in the words of the specification         *)
(* ===================================================================== *)

Module Spec.
Import Py Tools.

(** A string is blank when it is empty or all white space. *)
Fixpoint blank (s : string) : bool :=
  match s with
  | EmptyString => true
  | String c s' => isspace c && blank s'
  end.

(** [needle] is a case-insensitive substring of [text]. *)
Definition occurs_in (needle text : string) : bool :=
  contains (PyStr.lower needle) (PyStr.lower text).

(** [needle] occurs in a string-valued field. *)
Definition in_text_field (needle : string) (v : pyval) : bool :=
  match v with
  | VStr s => occurs_in needle s
  | _ => false
  end.

(** [needle] occurs in a string-valued field or in an element of a
    list-valued field. *)
Definition in_field (needle : string) (v : pyval) : bool :=
  match v with
  | VStr s => occurs_in needle s
  | VList l => existsb (occurs_in needle) l
  | _ => false
  end.

(** An education entry is selected by a filter that occurs in its
    institution, degree or field. *)
Definition edu_selected (query : string) (edu : pydict) : bool :=
  in_text_field query (get edu "institution")
  || in_text_field query (get edu "degree")
  || in_text_field query (get edu "field").

(** The education filter as specified: fall back to the full list when
    nothing is selected, render only the selected entries otherwise. *)
Definition education_filter_spec (query : string) (resume_data : ResumeData)
  : Prop :=
  let selected := List.filter (edu_selected query) (education resume_data) in
  (selected = [] ->
   get_education (Some query) resume_data = get_education None resume_data)
  /\ (selected <> [] ->
      get_education (Some query) resume_data = render_education selected).

(** A skill category is selected by an argument that occurs in its name. *)
Definition category_selected (category : string) (item : string * list string)
  : bool :=
  occurs_in category (fst item).

(** The skills filter as the claim words it: exactly the selected
    categories are kept, one line each, in source order. *)
Definition skills_filter_spec (category : string) (resume_data : ResumeData)
  : Prop :=
  get_skills (Some category) resume_data
  = Ok (PyStr.join nl
          (map render_skill
             (List.filter (category_selected category) (skills resume_data)))).

(** Which sections have a field the keyword occurs in. *)
Definition personal_matches (keyword : string) (resume_data : ResumeData) : bool :=
  existsb (in_field keyword) (values (personal_info resume_data))
  || in_field keyword (summary_of resume_data).

Definition entries_match (keyword : string) (entries : list pydict) : bool :=
  existsb (fun entry => existsb (in_field keyword) (values entry)) entries.

Definition skills_match (keyword : string) (resume_data : ResumeData) : bool :=
  existsb
    (fun item => occurs_in keyword (fst item)
                 || existsb (occurs_in keyword) (snd item))
    (skills resume_data).

Definition no_field_matches (keyword : string) (resume_data : ResumeData) : bool :=
  negb (personal_matches keyword resume_data)
  && negb (entries_match keyword (education resume_data))
  && negb (entries_match keyword (experience resume_data))
  && negb (skills_match keyword resume_data)
  && negb (entries_match keyword (projects resume_data)).

(** The texts [search_resume] looks the keyword up in: every personal-info
    value and the summary as [str] writes them, the string and list values
    of each education entry likewise, one space-joined text per experience
    entry and per project, and the skill category names and skill names. *)
Definition scanned_texts (resume_data : ResumeData) : list string :=
  app (map str (values (personal_info resume_data)))
    (app [str (summary_of resume_data)]
       (app (concat (map (fun edu => map str (List.filter is_str_or_list (values edu)))
                       (education resume_data)))
          (app (map entry_text (experience resume_data))
             (app (concat (map (fun item => fst item :: snd item)
                             (skills resume_data)))
                (map entry_text (projects resume_data)))))).

Definition occurs_nowhere (keyword : string) (resume_data : ResumeData) : bool :=
  forallb (fun text => negb (occurs_in keyword text)) (scanned_texts resume_data).

(** What a matched section contributes to the output: its header label,
    then the accessor's rendering. *)
Definition section_block (matched : bool) (header : string)
  (rendering : result string) : result (list string) :=
  if matched
  then try! text := rendering in Ok [header; text]
  else Ok [].

(** The output for a keyword that is not blank, given which sections are
    appended: the blocks in the fixed order personal info, education,
    experience, skills, projects, each accessor called with no filter. *)
Definition search_output (keyword : string) (resume_data : ResumeData)
  (with_personal with_education with_experience with_skills with_projects : bool)
  : result string :=
  try! b1 := section_block with_personal "PERSONAL INFO:"
               (get_personal_info None resume_data) in
  try! b2 := section_block with_education "EDUCATION:"
               (get_education None resume_data) in
  try! b3 := section_block with_experience "EXPERIENCE:"
               (get_experience None resume_data) in
  try! b4 := section_block with_skills "SKILLS:"
               (get_skills None resume_data) in
  try! b5 := section_block with_projects "PROJECTS:"
               (get_projects None resume_data) in
  match app b1 (app b2 (app b3 (app b4 b5))) with
  | [] => Ok (not_found keyword)
  | results => Ok (PyStr.join (nl ++ nl) results)
  end.

(** The search as the claim words it: every section with a matching field
    is among the appended ones. *)
Definition search_resume_spec (keyword : string) (resume_data : ResumeData)
  : Prop :=
  exists with_personal with_education with_experience with_skills with_projects,
    search_resume keyword resume_data
    = search_output keyword resume_data
        with_personal with_education with_experience with_skills with_projects
    /\ (personal_matches keyword resume_data = true -> with_personal = true)
    /\ (entries_match keyword (education resume_data) = true ->
        with_education = true)
    /\ (entries_match keyword (experience resume_data) = true ->
        with_experience = true)
    /\ (skills_match keyword resume_data = true -> with_skills = true)
    /\ (entries_match keyword (projects resume_data) = true ->
        with_projects = true).

(** Characters [repr] writes as they are, whatever the quotes. *)
Definition plain_char (c : ascii) : bool :=
  isprintable c && negb (Ascii.eqb c backslash) && negb (Ascii.eqb c squote).

Fixpoint plain (s : string) : bool :=
  match s with
  | EmptyString => true
  | String c s' => plain_char c && plain s'
  end.

End Spec.

(* ===================================================================== *)
(** ** Conversations: several turns on one session                        *)
(* ===================================================================== *)

Module Turns.
Import Agent.

(** The message list stored for a session, empty when there is none. *)
Definition transcript (self : ResumeAgent) (session_id : string) : list message :=
  match memory_store self !! session_id with
  | Some memory => memory
  | None => []
  end.

(** [chat] called once per message, in order: the answers and the agent
    afterwards. *)
Fixpoint chats (self : ResumeAgent) (session_id : string) (messages : list string)
  : list string * ResumeAgent :=
  match messages with
  | [] => ([], self)
  | message :: rest =>
      let '(response, self) := chat self message session_id in
      let '(responses, self) := chats self session_id rest in
      (response :: responses, self)
  end.

(** The text a turn ends with, by what the external call gave. *)
Definition answer_of (outcome : invoke_outcome) : string :=
  match outcome with
  | Returned (Some response) => response
  | Returned None => chat_error_msg missing_output_detail
  | Raised detail => chat_error_msg detail
  end.

(** The external call of a turn returned an answer. *)
Definition succeeds (self : ResumeAgent) (message session_id : string) : bool :=
  match ainvoke (agent_executor self) message (transcript self session_id) with
  | Returned (Some _) => true
  | _ => false
  end.

(** Every turn of the conversation was successful. *)
Fixpoint all_succeed (self : ResumeAgent) (session_id : string)
  (messages : list string) : bool :=
  match messages with
  | [] => true
  | message :: rest =>
      succeeds self message session_id
      && all_succeed (snd (chat self message session_id)) session_id rest
  end.

(** The human and assistant entries of one turn, as the history lists them. *)
Definition turn_entries (turn : string * string) : list history_entry :=
  [ {| entry_type := "human"; entry_content := fst turn;
       entry_timestamp := None |};
    {| entry_type := "ai"; entry_content := snd turn;
       entry_timestamp := None |} ].

(** The two messages a turn appends to the transcript. *)
Definition turn_messages (turn : string * string) : list message :=
  [ HumanMessage (fst turn); AIMessage (snd turn) ].

End Turns.

(* ===================================================================== *)
(** ** Example documents and executors                                    *)
(* ===================================================================== *)

Module Examples.
Import Agent.

(** Two education entries; only the first has a space in the three
    fields the education filter reads. *)
Definition two_schools : ResumeData := {|
  personal_info := [ ("name", VStr "Test User"); ("email", VStr "test@example.com") ];
  summary := None;
  education :=
    [ [ ("institution", VStr "Test University");
        ("degree", VStr "BSc");
        ("field", VStr "Physics");
        ("graduation_date", VStr "2020-05") ];
      [ ("institution", VStr "MIT");
        ("degree", VStr "MSc");
        ("field", VStr "Mathematics");
        ("graduation_date", VStr "2022-05") ] ];
  experience := [];
  skills := [];
  projects := []
|}.

(** The accomplishment [Cut the firm's "time to market"]: a bullet with a
    single quote and a pair of double quotes. *)
Definition quoted_bullet : string :=
  "Cut the firm's " ++ String dquote "time to market" ++ String dquote "".

Definition quoted_bullet_resume : ResumeData := {|
  personal_info := [ ("name", VStr "Test User"); ("email", VStr "test@example.com") ];
  summary := None;
  education := [];
  experience :=
    [ [ ("company", VStr "Test Corp");
        ("position", VStr "Software Engineer");
        ("start_date", VStr "2020-06");
        ("end_date", VNone);
        ("description", VList [quoted_bullet]);
        ("technologies", VList ["Python"]) ] ];
  skills := [];
  projects := []
|}.

(** A document whose [summary] is [null]; its skills name Python. *)
Definition null_summary_resume : ResumeData := {|
  personal_info := [ ("name", VStr "Test User"); ("email", VStr "test@example.com") ];
  summary := Some VNone;
  education := [];
  experience := [];
  skills := [ ("Programming Languages", ["Python"; "JavaScript"]) ];
  projects := []
|}.

(** The same document with the [summary] key left out. *)
Definition absent_summary_resume : ResumeData := {|
  personal_info := personal_info null_summary_resume;
  summary := None;
  education := education null_summary_resume;
  experience := experience null_summary_resume;
  skills := skills null_summary_resume;
  projects := projects null_summary_resume
|}.

(** A document whose experience entry has no [end_date] key. *)
Definition no_end_date_resume : ResumeData := {|
  personal_info := [ ("name", VStr "Test User"); ("email", VStr "test@example.com") ];
  summary := None;
  education := [];
  experience :=
    [ [ ("company", VStr "Test Corp");
        ("position", VStr "Software Engineer");
        ("start_date", VStr "2020-06");
        ("description", VList ["Built test applications"]) ] ];
  skills := [];
  projects := []
|}.

(** An executor that answers every input, and streams the three chunks
    of [tests/test_resume_agent.py]. *)
Definition answering : AgentExecutor := {|
  ainvoke := fun input _ => Returned (Some ("Answer to: " ++ input));
  astream := fun _ _ =>
    {| chunks := [Some "Hello "; None; Some "there! "; Some "This is a test response."];
       failure := None |}
|}.

(** An executor whose calls raise [Exception("Test error")]. *)
Definition failing : AgentExecutor := {|
  ainvoke := fun _ _ => Raised "Test error";
  astream := fun _ _ => {| chunks := []; failure := Some "Stream error" |}
|}.

Definition new_agent (executor : AgentExecutor) : ResumeAgent :=
  {| agent_executor := executor; memory_store := ∅ |}.

(** An agent that already holds a two-message transcript for [s1]. *)
Definition busy_agent (executor : AgentExecutor) : ResumeAgent :=
  {| agent_executor := executor;
     memory_store :=
       {[ "s1" := [HumanMessage "Test question"; AIMessage "Test answer"] ]} |}.

End Examples.

(* ===================================================================== *)
(** ** The experience and project filters, in the words of the docstrings *)
(* ===================================================================== *)

Module Filters.
Import Py Tools Schema Spec.

Definition present (d : pydict) (key : string) : bool :=
  match lookup d key with
  | Some _ => true
  | None => false
  end.

Definition is_list (d : pydict) (key : string) : bool :=
  match lookup d key with
  | Some (VList _) => true
  | _ => false
  end.

(** A list field with a default: absent or a list. *)
Definition absent_or_list (d : pydict) (key : string) : bool :=
  match lookup d key with
  | None | Some (VList _) => true
  | _ => false
  end.

(** The technology tags of an entry, none when the key is absent. *)
Definition tags (d : pydict) : list string :=
  match lookup d "technologies" with
  | Some (VList l) => l
  | _ => []
  end.

(** An experience entry is selected by a filter that occurs in its
    company, its position or one of its technology tags. *)
Definition exp_selected (query : string) (exp : pydict) : bool :=
  in_text_field query (get exp "company")
  || in_text_field query (get exp "position")
  || existsb (occurs_in query) (tags exp).


(** What the experience filter reads of an [Experience]. *)
Definition filterable_exp (exp : pydict) : bool :=
  has_str exp "company" && has_str exp "position"
  && absent_or_list exp "technologies".

(** What the project filter reads of a [Project]. *)
Definition filterable_project (project : pydict) : bool :=
  has_str project "name" && has_str project "description"
  && is_list project "technologies".

(** [Experience] with its [end_date] key written in the file. *)
Definition valid_exp (exp : pydict) : bool :=
  filterable_exp exp && has_str exp "start_date" && present exp "end_date"
  && is_list exp "description".

(** [Project]: optional fields may hold anything [str] can write. *)
Definition valid_project (project : pydict) : bool :=
  filterable_project project.

End Filters.

(* ===================================================================== *)
(** ** The remaining routes of [backend/api/chat.py]                      *)
(* ===================================================================== *)

Module Routes.
Import Agent Api.

(** The dict [get_chat_history] returns. *)
Record history_response : Type := {
  history_session_id : string;
  messages : list history_entry;
  total_messages : nat
}.

Definition get_chat_history (session_id : string) (agent : ResumeAgent)
  : history_response :=
  let history := get_session_history agent session_id in
  {| history_session_id := session_id;
     messages := history;
     total_messages := length history |}.

(** The dict [clear_chat_history] returns. *)
Record cleared_response : Type := {
  cleared_message : string;
  cleared_session_id : string
}.

Definition clear_chat_history (session_id : string) (agent : ResumeAgent)
  : cleared_response * ResumeAgent :=
  let agent := clear_memory agent session_id in
  ({| cleared_message := "Chat history cleared for session " ++ session_id;
      cleared_session_id := session_id |},
   agent).

(** What [POST /api/chat/stream] answers: a JSON error, or the streaming
    response with its media type, its headers and the records its body
    carries once the generator has run to its end. *)
Inductive stream_reply : Type :=
| Rejected (response : JSONResponse)
| StreamingResponse (media_type : string) (headers : list (string * string))
    (records : list ChatStreamChunk).

(** [stream_chat_endpoint]; the [print] of the origin is left out. *)
Definition stream_chat_endpoint (chat_message : ChatMessage) (uuid4 : string)
  (agent : ResumeAgent) : stream_reply * ResumeAgent :=
  if negb (nonempty (message chat_message))
  then (Rejected {| status_code := 400;
                    body := Detail "Message field is required" |},
        agent)
  else
    let session_id := session_or (session_id chat_message) uuid4 in
    let '(records, agent) :=
      stream_chat_response (message chat_message) session_id agent in
    (StreamingResponse "text/plain"
       [ ("Cache-Control", "no-cache");
         ("Connection", "keep-alive");
         ("X-Session-ID", session_id) ]
       records,
     agent).

(** [POST /api/chat/stream], body validation included. *)
Definition post_chat_stream (debug : bool) (datetime_ok : json -> bool)
  (request_body : list (string * json)) (uuid4 : string) (agent : ResumeAgent)
  : stream_reply * ResumeAgent :=
  match validate datetime_ok request_body with
  | inr errors => (Rejected (validation_exception_handler debug errors), agent)
  | inl chat_message => stream_chat_endpoint chat_message uuid4 agent
  end.

(** [headers[name]] *)
Fixpoint header (headers : list (string * string)) (name : string)
  : option string :=
  match headers with
  | [] => None
  | (k, v) :: rest => if String.eqb k name then Some v else header rest name
  end.

(** The bodies request validation accepts: [message] is a string,
    [session_id] and [origin] are absent, [null] or strings, and
    [timestamp] is absent or a datetime. *)
Definition optional_str_ok (body : list (string * json)) (key : string) : bool :=
  match field body key with
  | Some JOther => false
  | _ => true
  end.

Definition well_formed_body (datetime_ok : json -> bool)
  (body : list (string * json)) : bool :=
  match field body "message" with
  | Some (JString _) => true
  | _ => false
  end
  && optional_str_ok body "session_id"
  && optional_str_ok body "origin"
  && match field body "timestamp" with
     | None => true
     | Some v => datetime_ok v
     end.

(** The session a body asks for: its [session_id] when that is a string
    that is not empty, the generated identifier otherwise. *)
Definition requested_session (body : list (string * json)) (uuid4 : string)
  : string :=
  match field body "session_id" with
  | Some (JString s) => if nonempty s then s else uuid4
  | _ => uuid4
  end.

End Routes.

Module MoreExamples.
Import Agent.

(** An executor whose result has no [output] and whose stream breaks
    after two chunks. *)
Definition breaking : AgentExecutor := {|
  ainvoke := fun _ _ => Returned None;
  astream := fun _ _ =>
    {| chunks := [Some "Hello "; Some "there"];
       failure := Some "Connection lost" |}
|}.

End MoreExamples.

(* ===================================================================== *)
(** ** The global agent instance ([get_resume_agent])                     *)
(* ===================================================================== *)

Module Singleton.
Import Agent.

Definition missing_key_error : string :=
  "OPENAI_API_KEY environment variable is required".

(** [ResumeAgent()]: [_create_llm] raises [ValueError] when
    [os.getenv("OPENAI_API_KEY")] is unset or empty; otherwise the agent
    starts with an empty [memory_store].  [executor] is the
    [AgentExecutor] the framework builds. *)
Definition __init__ (api_key : option string) (executor : AgentExecutor)
  : ResumeAgent + string :=
  match api_key with
  | Some key =>
      if nonempty key
      then inl {| agent_executor := executor; memory_store := ∅ |}
      else inr missing_key_error
  | None => inr missing_key_error
  end.

(** [get_resume_agent], with the module variable [_agent_instance] passed
    in and out. *)
Definition get_resume_agent (_agent_instance : option ResumeAgent)
  (api_key : option string) (executor : AgentExecutor)
  : (ResumeAgent + string) * option ResumeAgent :=
  match _agent_instance with
  | Some agent => (inl agent, _agent_instance)
  | None =>
      match __init__ api_key executor with
      | inl agent => (inl agent, Some agent)
      | inr error => (inr error, None)
      end
  end.

End Singleton.

(* ===================================================================== *)
(** ** Loading the document ([load_resume_data])                          *)
(* ===================================================================== *)

Module Loader.

Definition default_path : string := "./backend/data/resume.json".

(** [os.path.isabs] on POSIX paths. *)
Definition isabs (path : string) : bool := String.prefix "/" path.

Fixpoint endswith_sep (path : string) : bool :=
  match path with
  | EmptyString => false
  | String c EmptyString => Ascii.eqb c "/"
  | String _ rest => endswith_sep rest
  end.

(** [os.path.join(a, b)] on POSIX paths. *)
Definition path_join (a b : string) : string :=
  if String.prefix "/" b then b
  else if negb (nonempty a) || endswith_sep a then a ++ b
  else a ++ "/" ++ b.

(** What [open(path)] gives. *)
Inductive open_outcome : Type :=
| Opened (content : string)
| NoSuchFile
| OtherError (error : string).

Inductive load_error : Type :=
| FileNotFoundError (message : string)
| ValueError (message : string)
| Propagated (error : string).

(** The path [load_resume_data] opens: [RESUME_DATA_PATH] or the default,
    joined to the working directory when relative. *)
Definition resume_path (env_path : option string) (cwd : string) : string :=
  let resume_path :=
    match env_path with
    | Some p => p
    | None => default_path
    end in
  if negb (isabs resume_path) then path_join cwd resume_path else resume_path.

(** [load_resume_data]; [open_file] is the file system, [json_load] the
    JSON decoder with the text of its [JSONDecodeError]. *)
Definition load_resume_data (env_path : option string) (cwd : string)
  (open_file : string -> open_outcome)
  (json_load : string -> ResumeData + string) : ResumeData + load_error :=
  let resume_path := resume_path env_path cwd in
  match open_file resume_path with
  | Opened content =>
      match json_load content with
      | inl data => inl data
      | inr e => inr (ValueError ("Invalid JSON in resume data file: " ++ e))
      end
  | NoSuchFile =>
      inr (FileNotFoundError ("Resume data file not found at " ++ resume_path))
  | OtherError e => inr (Propagated e)
  end.

End Loader.

(* ===================================================================== *)
(** ** Facts about Python strings                                         *)
(* ===================================================================== *)

Module PyStrFacts.

#[local] Arguments String.append !s1 s2 : simpl nomatch.

Lemma append_nil_r (s : string) : s ++ "" = s.
Proof. induction s as [|c s IH]; simpl; [reflexivity | now rewrite IH]. Qed.

Lemma append_assoc (a b c : string) : (a ++ b) ++ c = a ++ (b ++ c).
Proof. induction a as [|x a IH]; simpl; [reflexivity | now rewrite IH]. Qed.

Lemma prefix_nil (s : string) : String.prefix "" s = true.
Proof. destruct s; reflexivity. Qed.

Lemma prefix_append (sub rest : string) : String.prefix sub (sub ++ rest) = true.
Proof.
  induction sub as [|c sub IH]; simpl.
  - apply prefix_nil.
  - destruct (ascii_dec c c) as [_|ne]; [exact IH | now destruct ne].
Qed.

Lemma prefix_split (sub s : string) :
  String.prefix sub s = true -> exists rest, s = sub ++ rest.
Proof.
  revert s; induction sub as [|c sub IH]; intros s H.
  - exists s; reflexivity.
  - destruct s as [|d s]; simpl in H; [discriminate|].
    destruct (ascii_dec c d) as [->|]; [|discriminate].
    destruct (IH _ H) as [rest ->]. exists rest; reflexivity.
Qed.

Lemma contains_unfold (sub s : string) :
  contains sub s
  = if String.prefix sub s then true
    else match s with
         | EmptyString => false
         | String _ s' => contains sub s'
         end.
Proof. destruct s; reflexivity. Qed.

Lemma contains_prefix (sub s : string) :
  String.prefix sub s = true -> contains sub s = true.
Proof. intros H. rewrite contains_unfold. now rewrite H. Qed.

Lemma contains_tail (sub : string) (c : ascii) (s : string) :
  contains sub s = true -> contains sub (String c s) = true.
Proof.
  intros H. rewrite contains_unfold, H.
  now destruct (String.prefix sub (String c s)).
Qed.

Lemma contains_append_l (sub before s : string) :
  contains sub s = true -> contains sub (before ++ s) = true.
Proof.
  intros H. induction before as [|c before IH]; simpl append.
  - exact H.
  - now apply contains_tail.
Qed.

(** [sub in before + sub + after] *)
Lemma contains_middle (sub before after : string) :
  contains sub (before ++ sub ++ after) = true.
Proof. apply contains_append_l, contains_prefix, prefix_append. Qed.

Lemma contains_split (sub s : string) :
  contains sub s = true -> exists before after, s = before ++ sub ++ after.
Proof.
  induction s as [|c s IH]; rewrite contains_unfold.
  - destruct (String.prefix sub "") eqn:P; [|discriminate].
    intros _. destruct (prefix_split _ _ P) as [rest E].
    exists "", rest. exact E.
  - destruct (String.prefix sub (String c s)) eqn:P.
    + intros _. destruct (prefix_split _ _ P) as [rest E].
      exists "", rest. exact E.
    + intros H. destruct (IH H) as (before & after & ->).
      exists (String c before), after. reflexivity.
Qed.

Lemma contains_iff (sub s : string) :
  contains sub s = true <-> exists before after, s = before ++ sub ++ after.
Proof.
  split; [apply contains_split|].
  intros (before & after & ->). apply contains_middle.
Qed.

Lemma contains_append_r (sub s after : string) :
  contains sub s = true -> contains sub (s ++ after) = true.
Proof.
  intros H. destruct (contains_split _ _ H) as (a & b & ->).
  rewrite !append_assoc. apply contains_middle.
Qed.

Lemma lower_append (a b : string) :
  PyStr.lower (a ++ b) = PyStr.lower a ++ PyStr.lower b.
Proof. induction a as [|c a IH]; simpl; [reflexivity | now rewrite IH]. Qed.

(** Stripping leaves nothing exactly when every character is white space. *)
Lemma lstrip_blank (s : string) : Spec.blank s = true -> lstrip s = "".
Proof.
  induction s as [|c s IH]; simpl; [reflexivity|].
  destruct (isspace c); simpl; [exact IH | discriminate].
Qed.

Lemma lstrip_head (s : string) :
  lstrip s = "" \/ exists c r, lstrip s = String c r /\ isspace c = false.
Proof.
  induction s as [|c s IH]; simpl; [now left|].
  destruct (isspace c) eqn:E; [exact IH|].
  right. exists c, s. now split.
Qed.

Lemma lstrip_nonblank (s : string) : Spec.blank s = false -> lstrip s <> "".
Proof.
  induction s as [|c s IH]; simpl; [discriminate|].
  destruct (isspace c); simpl; [exact IH | discriminate].
Qed.

Lemma rstrip_keeps_head (c : ascii) (r : string) :
  isspace c = false -> rstrip (String c r) <> "".
Proof.
  intros E. simpl. destruct (rstrip r); [rewrite E|]; discriminate.
Qed.

Lemma strip_blank (s : string) : nonempty (strip s) = negb (Spec.blank s).
Proof.
  unfold strip. destruct (Spec.blank s) eqn:B.
  - now rewrite (lstrip_blank _ B).
  - destruct (lstrip_head s) as [E | (c & r & E & Hc)].
    + now apply lstrip_nonblank in B.
    + rewrite E. pose proof (rstrip_keeps_head c r Hc) as N.
      destruct (rstrip (String c r)); [now destruct N | reflexivity].
Qed.

(** [query and query.strip()] holds exactly for a query with a character
    that is not white space. *)
Lemma given_nonblank (q : string) : Tools.given (Some q) = negb (Spec.blank q).
Proof.
  unfold Tools.given. rewrite strip_blank.
  destruct q; reflexivity.
Qed.

End PyStrFacts.

(* ===================================================================== *)
(** ** Facts about the accessors                                          *)
(* ===================================================================== *)

Module ToolFacts.
Import Py Tools Schema Spec PyStrFacts.

Lemma orM_pure (a b : bool) : orM (Ok a) (Ok b) = Ok (a || b).
Proof. now destruct a. Qed.

(** A filtering loop whose test never raises is [filter]. *)
Lemma filterM_pure {A : Type} (keep : A -> result bool) (p : A -> bool)
  (l : list A) :
  (forall x, In x l -> keep x = Ok (p x)) -> filterM keep l = Ok (List.filter p l).
Proof.
  induction l as [|x l IH]; intros H; simpl; [reflexivity|].
  rewrite (H x (or_introl eq_refl)); simpl.
  rewrite IH by (intros y Hy; apply H; now right). simpl.
  now destruct (p x).
Qed.

Lemma mapM_total {A B : Type} (f : A -> result B) (l : list A) :
  (forall x, In x l -> exists y, f x = Ok y) -> exists ys, mapM f l = Ok ys.
Proof.
  induction l as [|x l IH]; intros H; simpl; [now exists []|].
  destruct (H x (or_introl eq_refl)) as [y ->]; simpl.
  destruct IH as [ys ->]; [intros z Hz; apply H; now right|].
  now exists (y :: ys).
Qed.

Lemma has_str_lookup (d : pydict) (key : string) :
  has_str d key = true -> exists s, lookup d key = Some (VStr s).
Proof.
  unfold has_str. destruct (lookup d key) as [[| |s|]|]; try discriminate.
  intros _. now exists s.
Qed.

Lemma key_contains_str (query_lower : string) (d : pydict) (key s : string) :
  lookup d key = Some (VStr s) ->
  key_contains query_lower d key = Ok (contains query_lower (PyStr.lower s)).
Proof. intros H. unfold key_contains, getitem. now rewrite H. Qed.

Lemma in_text_field_str (query : string) (d : pydict) (key s : string) :
  lookup d key = Some (VStr s) ->
  in_text_field query (get d key) = contains (PyStr.lower query) (PyStr.lower s).
Proof. intros H. unfold get, get_default. now rewrite H. Qed.

(** On an entry that follows the schema, the test of the education filter
    does not raise and is the selection of the specification. *)
Lemma edu_matches_selected (query : string) (edu : pydict) :
  valid_edu edu = true ->
  edu_matches (PyStr.lower query) edu = Ok (edu_selected query edu).
Proof.
  unfold valid_edu. rewrite !andb_true_iff.
  intros ((((Hi & Hd) & Hf) & _) & _).
  apply has_str_lookup in Hi, Hd, Hf.
  destruct Hi as [si Hi], Hd as [sd Hd], Hf as [sf Hf].
  unfold edu_matches, edu_selected.
  rewrite (key_contains_str _ _ _ _ Hi), (key_contains_str _ _ _ _ Hd),
    (key_contains_str _ _ _ _ Hf).
  rewrite (in_text_field_str _ _ _ _ Hi), (in_text_field_str _ _ _ _ Hd),
    (in_text_field_str _ _ _ _ Hf).
  rewrite !orM_pure. now rewrite orb_assoc.
Qed.

Lemma truthy_get_present (d : pydict) (key : string) :
  truthy (get d key) = true -> exists v, lookup d key = Some v /\ truthy v = true.
Proof.
  unfold get, get_default. destruct (lookup d key) as [v|]; [|discriminate].
  intros H. now exists v.
Qed.

Lemma opt_line_total (d : pydict) (key label : string) (info : list string) :
  exists info', opt_line d key label info = Ok info'.
Proof.
  unfold opt_line. destruct (truthy (get d key)) eqn:T; [|now eexists].
  destruct (truthy_get_present _ _ T) as (v & L & _).
  unfold getitem. rewrite L. simpl. now eexists.
Qed.

Lemma opt_joined_total (d : pydict) (key label : string) (info : list string) :
  opt_list d key = true -> exists info', opt_joined d key label info = Ok info'.
Proof.
  unfold opt_joined, opt_list. intros V.
  destruct (truthy (get d key)) eqn:T; [|now eexists].
  destruct (truthy_get_present _ _ T) as (v & L & Tv).
  unfold getitem. rewrite L in *. simpl.
  destruct v as [|n|s|l]; try discriminate; simpl; now eexists.
Qed.

Lemma render_edu_total (edu : pydict) :
  valid_edu edu = true -> exists text, render_edu edu = Ok text.
Proof.
  unfold valid_edu. rewrite !andb_true_iff.
  intros ((((Hi & Hd) & Hf) & Hg) & Ha).
  apply has_str_lookup in Hi, Hd, Hf, Hg.
  destruct Hi as [si Hi], Hd as [sd Hd], Hf as [sf Hf], Hg as [sg Hg].
  unfold render_edu, getitem. rewrite Hi, Hd, Hf, Hg. simpl.
  match goal with |- context [opt_line ?d ?k ?l ?i] =>
    destruct (opt_line_total d k l i) as [info1 ->] end. simpl.
  destruct (opt_joined_total edu "achievements" "Achievements: " info1 Ha)
    as [info2 ->]. simpl.
  now eexists.
Qed.

Lemma render_education_total (entries : list pydict) :
  forallb valid_edu entries = true -> exists text, render_education entries = Ok text.
Proof.
  intros V. unfold render_education.
  destruct (mapM_total render_edu entries) as [ys ->].
  - intros e He. apply render_edu_total.
    rewrite forallb_forall in V. now apply V.
  - simpl. now eexists.
Qed.

Lemma forallb_filter {A : Type} (p q : A -> bool) (l : list A) :
  forallb p l = true -> forallb p (List.filter q l) = true.
Proof.
  rewrite !forallb_forall. intros H x Hx. apply filter_In in Hx. now apply H.
Qed.

(** What [get_education] does with a filter that is not blank. *)
Lemma get_education_filtered (query : string) (resume_data : ResumeData) :
  valid_education resume_data = true ->
  blank query = false ->
  get_education (Some query) resume_data
  = render_education
      (or_all (List.filter (edu_selected query) (education resume_data))
         (education resume_data)).
Proof.
  intros V B. unfold get_education.
  rewrite given_nonblank, B. simpl negb. cbv iota.
  rewrite (filterM_pure _ (edu_selected query)).
  - reflexivity.
  - intros e He. apply edu_matches_selected.
    unfold valid_education in V. rewrite forallb_forall in V. now apply V.
Qed.

(** A blank filter is no filter. *)
Lemma get_education_blank (query : string) (resume_data : ResumeData) :
  blank query = true ->
  get_education (Some query) resume_data = get_education None resume_data.
Proof.
  intros B. unfold get_education. now rewrite given_nonblank, B.
Qed.

(** Assigning a new key appends it. *)
Lemma dict_set_fresh {V : Type} (d : list (string * V)) (key : string) (v : V) :
  existsb (fun item => String.eqb (fst item) key) d = false ->
  dict_set d key v = app d [(key, v)].
Proof.
  induction d as [|[k v'] d IH]; simpl; [reflexivity|].
  rewrite orb_false_iff. intros [E H]. rewrite E. now rewrite IH.
Qed.

Lemma existsb_app_false {A : Type} (p : A -> bool) (l1 l2 : list A) :
  existsb p l1 = false -> existsb p l2 = false -> existsb p (app l1 l2) = false.
Proof. intros H1 H2. now rewrite existsb_app, H1, H2. Qed.

Lemma filter_skills_acc (category_lower : string)
  (todo acc : list (string * list string)) :
  distinct_keys todo = true ->
  (forall item, In item todo ->
     existsb (fun seen => String.eqb (fst seen) (fst item)) acc = false) ->
  fold_left
    (fun filtered_skills item =>
       if category_matches category_lower item
       then dict_set filtered_skills (fst item) (snd item)
       else filtered_skills)
    todo acc
  = app acc (List.filter (category_matches category_lower) todo).
Proof.
  revert acc. induction todo as [|[k v] todo IH]; intros acc D F; simpl.
  - now rewrite app_nil_r.
  - simpl in D. apply andb_true_iff in D as [Dk D].
    apply negb_true_iff in Dk.
    destruct (category_matches category_lower (k, v)) eqn:M; simpl.
    + rewrite dict_set_fresh by (apply (F (k, v)); now left).
      rewrite IH; [now rewrite <- app_assoc | exact D |].
      intros item Hi. apply existsb_app_false; [apply F; now right|].
      simpl. rewrite orb_false_r.
      destruct (String.eqb k (fst item)) eqn:E; [|reflexivity].
      apply String.eqb_eq in E. subst k.
      assert (X : existsb (fun seen => String.eqb (fst seen) (fst item)) todo = true)
        by (apply existsb_exists; exists item; split;
            [exact Hi | apply String.eqb_refl]).
      congruence.
    + apply IH; [exact D|]. intros item Hi. apply F. now right.
Qed.

(** On a dict (keys pairwise different) the filtering loop of
    [get_skills] is [filter]. *)
Lemma filter_skills_filter (category_lower : string)
  (skills_dict : list (string * list string)) :
  distinct_keys skills_dict = true ->
  filter_skills category_lower skills_dict
  = List.filter (category_matches category_lower) skills_dict.
Proof.
  intros D. unfold filter_skills. now rewrite filter_skills_acc.
Qed.

End ToolFacts.

(* ===================================================================== *)
(** ** Facts about the session table                                      *)
(* ===================================================================== *)

Module AgentFacts.
Import Agent Turns.

Lemma history_is_transcript (self : ResumeAgent) (session_id : string) :
  get_session_history self session_id
  = map history_entry_of (transcript self session_id).
Proof.
  unfold get_session_history, transcript.
  now destruct (memory_store self !! session_id).
Qed.

Lemma get_or_create_memory (self : ResumeAgent) (session_id : string) :
  let '(memory, self') := _get_or_create_memory self session_id in
  memory = transcript self session_id
  /\ memory_store self' !! session_id = Some memory
  /\ agent_executor self' = agent_executor self
  /\ (forall other, other <> session_id ->
        memory_store self' !! other = memory_store self !! other).
Proof.
  unfold _get_or_create_memory, transcript.
  destruct (memory_store self !! session_id) as [memory|] eqn:L; simpl.
  - auto.
  - rewrite lookup_insert_eq. repeat split.
    intros other Hne. now rewrite lookup_insert_ne.
Qed.

Lemma add_message_here (self : ResumeAgent) (session_id : string)
  (msg : message) (memory : list message) :
  memory_store self !! session_id = Some memory ->
  memory_store (add_message self session_id msg) !! session_id
  = Some (app memory [msg]).
Proof. intros L. simpl. now rewrite lookup_alter_eq, L. Qed.

Lemma add_message_elsewhere (self : ResumeAgent) (session_id other : string)
  (msg : message) :
  other <> session_id ->
  memory_store (add_message self session_id msg) !! other
  = memory_store self !! other.
Proof. intros Hne. simpl. now rewrite lookup_alter_ne. Qed.

(** Two messages appended to the memory of [session_id]. *)
Lemma add_two_messages (self : ResumeAgent) (session_id : string)
  (m1 m2 : message) (memory : list message) :
  memory_store self !! session_id = Some memory ->
  let self' := add_message (add_message self session_id m1) session_id m2 in
  memory_store self' !! session_id = Some (app memory [m1; m2])
  /\ agent_executor self' = agent_executor self
  /\ (forall other, other <> session_id ->
        memory_store self' !! other = memory_store self !! other).
Proof.
  intros L. cbv zeta. repeat split.
  - rewrite (add_message_here _ _ _ (app memory [m1])).
    + now rewrite <- app_assoc.
    + now apply add_message_here.
  - intros other Hne. now rewrite !add_message_elsewhere.
Qed.

(** One turn of [chat]: the answer is decided by the external call on the
    prior transcript, the turn's two messages are appended to the session,
    and no other session changes. *)
Lemma chat_turn (self : ResumeAgent) (message session_id : string) :
  let answer :=
    answer_of (ainvoke (agent_executor self) message
                 (transcript self session_id)) in
  let self' := snd (chat self message session_id) in
  fst (chat self message session_id) = answer
  /\ memory_store self' !! session_id
     = Some (app (transcript self session_id)
               [HumanMessage message; AIMessage answer])
  /\ agent_executor self' = agent_executor self
  /\ (forall other, other <> session_id ->
        memory_store self' !! other = memory_store self !! other).
Proof.
  cbv zeta. unfold chat.
  pose proof (get_or_create_memory self session_id) as G.
  destruct (_get_or_create_memory self session_id) as [memory self1].
  destruct G as (-> & L & E & F). rewrite E.
  destruct (ainvoke (agent_executor self) message (transcript self session_id))
    as [[response|]|detail]; simpl answer_of; cbv zeta;
    match goal with |- context [add_message (add_message _ _ ?a) _ ?b] =>
      destruct (add_two_messages self1 session_id a b _ L) as (L2 & E2 & F2)
    end; simpl fst; simpl snd;
    (repeat split; [exact L2 | congruence |
       intros other Hne; rewrite F2 by exact Hne; now apply F]).
Qed.

Lemma transcript_after_chat (self : ResumeAgent) (message session_id : string) :
  transcript (snd (chat self message session_id)) session_id
  = app (transcript self session_id)
      [HumanMessage message; AIMessage (fst (chat self message session_id))].
Proof.
  destruct (chat_turn self message session_id) as (A & L & _).
  unfold transcript at 1. now rewrite L, A.
Qed.

Lemma transcript_elsewhere_after_chat (self : ResumeAgent)
  (message session_id other : string) :
  other <> session_id ->
  transcript (snd (chat self message session_id)) other = transcript self other.
Proof.
  intros Hne. destruct (chat_turn self message session_id) as (_ & _ & _ & F).
  unfold transcript. now rewrite F.
Qed.

(** The streaming turn, likewise. *)
Lemma stream_chat_turn (self : ResumeAgent) (message session_id : string) :
  let stream :=
    astream (agent_executor self) message (transcript self session_id) in
  let fragments := fst (stream_chat self message session_id) in
  let self' := snd (stream_chat self message session_id) in
  match failure stream with
  | None =>
      fragments = outputs (chunks stream)
      /\ transcript self' session_id
         = app (transcript self session_id)
             [HumanMessage message; AIMessage (PyStr.join "" fragments)]
  | Some detail =>
      fragments = app (outputs (chunks stream)) [stream_error_msg detail]
      /\ transcript self' session_id
         = app (transcript self session_id)
             [HumanMessage message; AIMessage (stream_error_msg detail)]
  end.
Proof.
  cbv zeta. unfold stream_chat.
  pose proof (get_or_create_memory self session_id) as G.
  destruct (_get_or_create_memory self session_id) as [memory self1].
  destruct G as (-> & L & E & F). rewrite E.
  destruct (failure (astream (agent_executor self) message
                       (transcript self session_id))) as [detail|];
    cbv zeta;
    match goal with |- context [add_message (add_message _ _ ?a) _ ?b] =>
      destruct (add_two_messages self1 session_id a b _ L) as (L2 & _)
    end; simpl fst; simpl snd; (split; [reflexivity|]);
    unfold transcript at 1; now rewrite L2.
Qed.

Lemma clear_memory_here (self : ResumeAgent) (session_id : string) :
  memory_store (clear_memory self session_id) !! session_id = None.
Proof.
  unfold clear_memory.
  destruct (memory_store self !! session_id) eqn:L; simpl;
    [apply lookup_delete_eq | exact L].
Qed.

Lemma clear_memory_elsewhere (self : ResumeAgent) (session_id other : string) :
  other <> session_id ->
  memory_store (clear_memory self session_id) !! other
  = memory_store self !! other.
Proof.
  intros Hne. unfold clear_memory.
  destruct (memory_store self !! session_id); simpl;
    [now rewrite lookup_delete_ne | reflexivity].
Qed.

End AgentFacts.

(* ===================================================================== *)
(** ** Properties of the conversational agent                             *)
(* ===================================================================== *)

Import Agent Turns Examples AgentFacts.



(** The transcript after any run of turns: two messages per turn, in call
    order, after what was there before. *)
Lemma transcript_after_chats (self : ResumeAgent) (session_id : string)
  (messages : list string) :
  transcript (snd (chats self session_id messages)) session_id
  = app (transcript self session_id)
      (flat_map (fun turn => [HumanMessage (fst turn); AIMessage (snd turn)])
         (combine messages (fst (chats self session_id messages))))
  /\ length (fst (chats self session_id messages)) = length messages.
Proof.
  revert self. induction messages as [|message rest IH]; intros self; simpl.
  - now rewrite app_nil_r.
  - pose proof (transcript_after_chat self message session_id) as T.
    destruct (chat self message session_id) as [response self1]. simpl in T.
    specialize (IH self1).
    destruct (chats self1 session_id rest) as [responses self2]. simpl in *.
    destruct IH as [IH L]. split; [|now rewrite L].
    now rewrite IH, T, <- app_assoc.
Qed.

Lemma history_after_clear (self : ResumeAgent) (session_id : string) :
  get_session_history (clear_memory self session_id) session_id = [].
Proof.
  unfold get_session_history. now rewrite clear_memory_here.
Qed.

Lemma flat_map_pairs_length {A B : Type} (f : A -> list B) (l : list A) :
  (forall x, length (f x) = 2) -> length (flat_map f l) = 2 * length l.
Proof.
  intros H. induction l as [|x l IH]; simpl; [reflexivity|].
  rewrite length_app, H, IH. lia.
Qed.

(** In a run of successful turns every answer is an output the external
    agent returned for that turn's input. *)
Lemma answers_of_successful_turns (self : ResumeAgent) (session_id : string)
  (messages : list string) :
  all_succeed self session_id messages = true ->
  Forall2
    (fun message response =>
       exists prior,
         ainvoke (agent_executor self) message prior = Returned (Some response))
    messages (fst (chats self session_id messages)).
Proof.
  revert self. induction messages as [|message rest IH]; intros self; simpl.
  - constructor.
  - intros H. apply andb_true_iff in H as [S R].
    destruct (chat_turn self message session_id) as (A & _ & E & _).
    specialize (IH _ R). rewrite E in IH.
    destruct (chat self message session_id) as [response self1]. simpl in *.
    destruct (chats self1 session_id rest) as [responses self2]. simpl in *.
    constructor; [|exact IH].
    exists (transcript self session_id). unfold succeeds in S.
    destruct (ainvoke (agent_executor self) message (transcript self session_id))
      as [[r|]|]; try discriminate.
    simpl in A. now subst.
Qed.

(** C3. Starting from an empty or cleared transcript, after N successful
    chat turns on a session the history snapshot of that session has
    length exactly 2N and lists, in call order, the human message followed
    by the assistant message of each turn: an entry of type [human] whose
    content is the turn's input, then an entry of type [ai] whose content
    is the answer the external agent returned in that turn. *)
Theorem history_after_successful_turns
  (self start : ResumeAgent) (session_id : string) (messages : list string) :
  start = clear_memory self session_id
  \/ get_session_history start session_id = [] ->
  all_succeed start session_id messages = true ->
  let responses := fst (chats start session_id messages) in
  let final := snd (chats start session_id messages) in
  let history := get_session_history final session_id in
  length history = 2 * length messages
  /\ history = flat_map turn_entries (combine messages responses)
  /\ Forall2
       (fun message response =>
          exists prior,
            ainvoke (agent_executor start) message prior
            = Returned (Some response))
       messages responses
  /\ length responses = length messages
  /\ map entry_type history
     = flat_map (fun _ : string => ["human"; "ai"]) messages
  /\ map entry_content history
     = flat_map (fun turn : string * string => [fst turn; snd turn])
         (combine messages responses)
  /\ transcript final session_id
     = flat_map turn_messages (combine messages responses).
Proof.
  intros Hstart Hsucc. cbv zeta.
  assert (E : get_session_history start session_id = [])
    by (destruct Hstart as [-> | E]; [apply history_after_clear | exact E]).
  assert (E0 : transcript start session_id = []).
  { rewrite history_is_transcript in E.
    destruct (transcript start session_id); [reflexivity | discriminate]. }
  destruct (transcript_after_chats start session_id messages) as [T L].
  rewrite E0 in T. simpl app in T.
  assert (H : get_session_history (snd (chats start session_id messages)) session_id
              = flat_map turn_entries
                  (combine messages (fst (chats start session_id messages)))).
  { rewrite history_is_transcript, T.
    generalize (combine messages (fst (chats start session_id messages))).
    intros turns. induction turns as [|turn turns IH]; simpl; [reflexivity|].
    now rewrite IH. }
  split; [|split; [exact H|split; [now apply answers_of_successful_turns|]]].
  { rewrite H, flat_map_pairs_length by reflexivity.
    now rewrite length_combine, L, Nat.min_id. }
  split; [exact L|]. rewrite H. split; [|split].
  - revert L. generalize (fst (chats start session_id messages)).
    clear. induction messages as [|message rest IH]; intros [|response responses] L;
      try discriminate; [reflexivity|].
    simpl. f_equal. f_equal. apply IH. now injection L.
  - generalize (combine messages (fst (chats start session_id messages))).
    intros turns. induction turns as [|turn turns IH]; simpl; [reflexivity|].
    now rewrite IH.
  - rewrite T.
    generalize (combine messages (fst (chats start session_id messages))).
    intros turns. induction turns as [|turn turns IH]; simpl; [reflexivity|].
    now rewrite IH.
Qed.

Lemma history_after_successful_turns_witness :
  let final :=
    snd (chats (clear_memory (busy_agent answering) "s1") "s1"
           ["First question"; "Second question"]) in
  get_session_history final "s1"
  = [ {| entry_type := "human"; entry_content := "First question";
         entry_timestamp := None |};
      {| entry_type := "ai"; entry_content := "Answer to: First question";
         entry_timestamp := None |};
      {| entry_type := "human"; entry_content := "Second question";
         entry_timestamp := None |};
      {| entry_type := "ai"; entry_content := "Answer to: Second question";
         entry_timestamp := None |} ]
  /\ map entry_type (get_session_history final "s1")
     = ["human"; "ai"; "human"; "ai"]
  /\ map entry_content (get_session_history final "s1")
     = ["First question"; "Answer to: First question";
        "Second question"; "Answer to: Second question"].
Proof.
  cbv zeta.
  destruct (history_after_successful_turns (busy_agent answering)
              (clear_memory (busy_agent answering) "s1") "s1"
              ["First question"; "Second question"]
              (or_introl eq_refl) eq_refl) as (_ & H & _ & _ & Ty & Co & _).
  cbv zeta in H, Ty, Co. rewrite Ty, Co, H. vm_compute. repeat split.
Defined.

(** C4. When a streaming chat turn completes without error, the fragments
    [stream_chat] yields, concatenated in emission order, are the content
    of the assistant message appended to the session's transcript at the
    end of the turn; they are the contents of the records the endpoint
    emits before its final, [is_complete] record. *)
Theorem streamed_fragments_are_the_answer
  (self : ResumeAgent) (message session_id : string) :
  failure (astream (agent_executor self) message (transcript self session_id))
  = None ->
  let fragments := fst (stream_chat self message session_id) in
  let self' := snd (stream_chat self message session_id) in
  let records := fst (Api.stream_chat_response message session_id self) in
  transcript self' session_id
  = app (transcript self session_id)
      [HumanMessage message; AIMessage (PyStr.join "" fragments)]
  /\ map Api.chunk_content
       (List.filter (fun record => negb (Api.is_complete record)) records)
     = fragments.
Proof.
  intros Hok. cbv zeta.
  pose proof (stream_chat_turn self message session_id) as S.
  cbv zeta in S. rewrite Hok in S. destruct S as [_ T].
  split; [exact T|].
  unfold Api.stream_chat_response.
  destruct (stream_chat self message session_id) as [fragments self']. simpl.
  rewrite List.filter_app. simpl. rewrite app_nil_r. clear T.
  induction fragments as [|fragment fragments IH]; simpl; [reflexivity|].
  now rewrite IH.
Qed.

Lemma streamed_fragments_are_the_answer_witness :
  transcript (snd (stream_chat (busy_agent answering) "Test message" "s1")) "s1"
  = [ HumanMessage "Test question"; AIMessage "Test answer";
      HumanMessage "Test message";
      AIMessage "Hello there! This is a test response." ].
Proof.
  destruct (streamed_fragments_are_the_answer (busy_agent answering)
              "Test message" "s1" eq_refl) as [T _].
  rewrite T. vm_compute. reflexivity.
Defined.

(** C10. [clear_memory session_id] touches at most the entry of
    [session_id]: every other session keeps its stored transcript and its
    history, and clearing an id that has no stored transcript leaves the
    agent, and so the whole table, unchanged. *)
Theorem clear_memory_touches_one_session
  (self : ResumeAgent) (session_id : string) :
  (forall other, other <> session_id ->
     memory_store (clear_memory self session_id) !! other
     = memory_store self !! other
     /\ get_session_history (clear_memory self session_id) other
        = get_session_history self other)
  /\ (memory_store self !! session_id = None ->
      clear_memory self session_id = self).
Proof.
  split.
  - intros other Hne.
    pose proof (clear_memory_elsewhere self session_id other Hne) as F.
    split; [exact F|]. unfold get_session_history. now rewrite F.
  - intros L. unfold clear_memory. now rewrite L.
Qed.

Lemma clear_memory_touches_one_session_witness :
  get_session_history (clear_memory (busy_agent answering) "s2") "s1"
  = get_session_history (busy_agent answering) "s1"
  /\ clear_memory (busy_agent answering) "s2" = busy_agent answering.
Proof.
  destruct (clear_memory_touches_one_session (busy_agent answering) "s2")
    as [F W].
  split.
  - apply (F "s1"). discriminate.
  - apply W. vm_compute. reflexivity.
Defined.

(* ===================================================================== *)
(** ** Properties of the endpoints                                        *)
(* ===================================================================== *)

(** C9, as stated, fails: the body of [tests/test_chat_api.py] that has a
    [session_id] and no [message] is answered with status 422, not 400. *)
Lemma missing_message_is_not_answered_400 :
  Api.field [("session_id", Api.JString "test_session")] "message" = None
  /\ Api.status_code
       (fst (Api.post_chat true (fun _ => true)
               [("session_id", Api.JString "test_session")]
               "generated-id" (new_agent answering)))
     <> 400%N.
Proof. split; [reflexivity | vm_compute; discriminate]. Qed.

(** C9, amended. Every POST /api/chat request whose body lacks the
    required [message] field is rejected with HTTP status 422, by the
    validation handler, before the chat endpoint runs: no session is
    touched. *)
Theorem missing_message_is_rejected_422
  (debug : bool) (datetime_ok : Api.json -> bool)
  (request_body : list (string * Api.json)) (uuid4 : string)
  (agent : ResumeAgent) :
  Api.field request_body "message" = None ->
  Api.status_code (fst (Api.post_chat debug datetime_ok request_body uuid4 agent))
  = 422%N
  /\ snd (Api.post_chat debug datetime_ok request_body uuid4 agent) = agent.
Proof.
  intros Hmissing. unfold Api.post_chat, Api.validate, Api.required_str.
  rewrite Hmissing.
  destruct (Api.optional_str request_body "session_id"),
    (Api.optional_str request_body "origin"),
    (Api.defaulted_datetime datetime_ok request_body "timestamp");
    split; reflexivity.
Qed.

Lemma missing_message_is_rejected_422_witness :
  Api.status_code
    (fst (Api.post_chat false (fun _ => true)
            [("session_id", Api.JString "test_session")]
            "generated-id" (busy_agent answering)))
  = 422%N.
Proof.
  apply (missing_message_is_rejected_422 false (fun _ => true)
           [("session_id", Api.JString "test_session")]
           "generated-id" (busy_agent answering) eq_refl).
Defined.

(** Status 400 is what the endpoint itself answers when [message] is
    present and empty. *)
Lemma empty_message_is_rejected_400
  (chat_message : Api.ChatMessage) (uuid4 : string) (agent : ResumeAgent) :
  Api.message chat_message = "" ->
  Api.chat_endpoint chat_message uuid4 agent
  = ({| Api.status_code := 400; Api.body := Api.Detail "Message field is required" |},
     agent).
Proof. intros E. unfold Api.chat_endpoint. now rewrite E. Qed.

(* ===================================================================== *)
(** ** Properties of the accessors                                        *)
(* ===================================================================== *)

Import Py Tools Schema Spec PyStrFacts ToolFacts.

(** C8. On the same document [get_personal_info] returns the same text
    for every pair of filter arguments, absent ones included: the filter
    is accepted and never applied. *)
Theorem get_personal_info_ignores_filter
  (query1 query2 : option string) (resume_data : ResumeData) :
  get_personal_info query1 resume_data = get_personal_info query2 resume_data.
Proof. reflexivity. Qed.

(** C5, as stated, fails: the filter [" "] is not empty and selects the
    first of the two entries of [two_schools], yet both are rendered. *)
Lemma education_filter_counterexample :
  " " <> ""
  /\ valid_education two_schools = true
  /\ ~ education_filter_spec " " two_schools.
Proof.
  split; [discriminate|]. split; [reflexivity|].
  intros [_ H]. assert (N : List.filter (edu_selected " ") (education two_schools) <> [])
    by (vm_compute; discriminate).
  specialize (H N). vm_compute in H. discriminate H.
Qed.

(** C5, amended. On a document whose education entries follow the schema,
    a filter that is not blank and occurs (ignoring case) in the
    institution, degree or field of no entry gives exactly the text of
    [get_education] without filter; when it occurs in at least one entry,
    only those entries are rendered; a blank filter, empty or all white
    space, is no filter at all.  In every case a text is returned. *)
Theorem education_filter_nonblank
  (query : string) (resume_data : ResumeData) :
  valid_education resume_data = true ->
  (blank query = false -> education_filter_spec query resume_data)
  /\ (blank query = true ->
      get_education (Some query) resume_data = get_education None resume_data)
  /\ (exists text, get_education (Some query) resume_data = Ok text).
Proof.
  intros V. split; [|split].
  - intros B. unfold education_filter_spec. cbv zeta.
    rewrite (get_education_filtered _ _ V B).
    split; intros S.
    + rewrite S. reflexivity.
    + destruct (List.filter (edu_selected query) (education resume_data));
        [now destruct S | reflexivity].
  - apply get_education_blank.
  - destruct (blank query) eqn:B.
    + rewrite (get_education_blank _ _ B). unfold get_education. simpl.
      now apply render_education_total.
    + rewrite (get_education_filtered _ _ V B).
      apply render_education_total.
      destruct (List.filter (edu_selected query) (education resume_data)) eqn:F;
        simpl or_all; [exact V|].
      rewrite <- F. now apply forallb_filter.
Qed.

Lemma education_filter_nonblank_witness :
  get_education (Some "Nonexistent University") SAMPLE_RESUME_DATA
  = get_education None SAMPLE_RESUME_DATA
  /\ get_education (Some "mit") two_schools
     = render_education
         [ [ ("institution", VStr "MIT"); ("degree", VStr "MSc");
             ("field", VStr "Mathematics"); ("graduation_date", VStr "2022-05") ] ].
Proof.
  split.
  - destruct (education_filter_nonblank "Nonexistent University"
                SAMPLE_RESUME_DATA eq_refl) as [S _].
    destruct (S eq_refl) as [F _]. apply F. reflexivity.
  - destruct (education_filter_nonblank "mit" two_schools eq_refl) as [S _].
    destruct (S eq_refl) as [_ K]. apply K. vm_compute. discriminate.
Defined.

(** C6, as stated, fails: no category name of the test document contains
    ["Nonexistent Category"], yet every category is returned. *)
Lemma skills_filter_counterexample :
  "Nonexistent Category" <> ""
  /\ ~ skills_filter_spec "Nonexistent Category" SAMPLE_RESUME_DATA.
Proof.
  split; [discriminate|].
  unfold skills_filter_spec. vm_compute. discriminate.
Qed.

(** C6, amended. With a category argument that is not blank and occurs
    (ignoring case) in at least one category name, [get_skills] keeps
    exactly the categories whose name contains it (skill names are never
    matched) and renders one [Category: skill1, skill2, ...] line per
    retained category in source order; when it occurs in no category
    name, or is blank, every category is rendered, as without argument. *)
Theorem skills_filter_with_fallback
  (category : string) (resume_data : ResumeData) :
  distinct_keys (skills resume_data) = true ->
  let selected :=
    List.filter (category_selected category) (skills resume_data) in
  (blank category = false -> selected <> [] ->
   skills_filter_spec category resume_data)
  /\ (blank category = true \/ selected = [] ->
      get_skills (Some category) resume_data = get_skills None resume_data).
Proof.
  intros D. cbv zeta.
  assert (G : blank category = false ->
              get_skills (Some category) resume_data
              = Ok (render_skills
                      (or_all (List.filter (category_selected category)
                                 (skills resume_data))
                         (skills resume_data)))).
  { intros B. unfold get_skills. rewrite given_nonblank, B. simpl negb. cbv iota.
    now rewrite (filter_skills_filter _ _ D). }
  split.
  - intros B S. unfold skills_filter_spec. rewrite (G B).
    destruct (List.filter (category_selected category) (skills resume_data));
      [now destruct S | reflexivity].
  - destruct (blank category) eqn:B.
    + intros _. unfold get_skills. now rewrite given_nonblank, B.
    + intros [X | S]; [discriminate|]. rewrite (G eq_refl), S. reflexivity.
Qed.

Lemma skills_filter_with_fallback_witness :
  get_skills (Some "Programming") SAMPLE_RESUME_DATA
  = Ok "Programming Languages: Python, JavaScript".
Proof.
  destruct (skills_filter_with_fallback "Programming" SAMPLE_RESUME_DATA
              eq_refl) as [K _].
  unfold skills_filter_spec in K. rewrite K.
  - vm_compute. reflexivity.
  - reflexivity.
  - vm_compute. discriminate.
Defined.

(** *** The keyword search *)

Lemma existsb_as_forallb {A : Type} (p : A -> bool) (l : list A) :
  existsb p l = negb (forallb (fun x => negb (p x)) l).
Proof.
  induction l as [|x l IH]; simpl; [reflexivity|].
  rewrite IH. now destruct (p x).
Qed.

Lemma forallb_map {A B : Type} (p : B -> bool) (f : A -> B) (l : list A) :
  forallb p (map f l) = forallb (fun x => p (f x)) l.
Proof. induction l as [|x l IH]; simpl; [reflexivity | now rewrite IH]. Qed.

Lemma forallb_concat {A : Type} (p : A -> bool) (ls : list (list A)) :
  forallb p (concat ls) = forallb (forallb p) ls.
Proof.
  induction ls as [|l ls IH]; simpl; [reflexivity|].
  now rewrite forallb_app, IH.
Qed.

Lemma forallb_pointwise {A : Type} (p q : A -> bool) (l : list A) :
  (forall x, p x = q x) -> forallb p l = forallb q l.
Proof.
  intros H. induction l as [|x l IH]; simpl; [reflexivity|].
  now rewrite H, IH.
Qed.

(** A loop over a section none of whose entries is hit leaves [results]
    as it was. *)
Lemma scan_section_no_hit {A : Type} (hit : A -> bool) (entries : list A)
  (header : string) (rendering : result string) (results : list string) :
  existsb hit entries = false ->
  scan_section hit entries header rendering results = Ok results.
Proof.
  induction entries as [|entry rest IH]; simpl; [reflexivity|].
  rewrite orb_false_iff. intros [H R]. rewrite H. now apply IH.
Qed.

(** The five conditions of [search_resume] fail when the keyword occurs in
    none of the scanned texts. *)
Lemma nothing_scanned_no_hit (keyword : string) (resume_data : ResumeData) :
  occurs_nowhere keyword resume_data = true ->
  existsb (value_hit (PyStr.lower keyword)) (values (personal_info resume_data))
  = false
  /\ contains (PyStr.lower keyword) (PyStr.lower (str (summary_of resume_data)))
     = false
  /\ existsb (edu_hit (PyStr.lower keyword)) (education resume_data) = false
  /\ existsb (entry_hit (PyStr.lower keyword)) (experience resume_data) = false
  /\ existsb (skill_hit (PyStr.lower keyword)) (skills resume_data) = false
  /\ existsb (entry_hit (PyStr.lower keyword)) (projects resume_data) = false.
Proof.
  unfold occurs_nowhere, scanned_texts.
  rewrite !forallb_app, !andb_true_iff.
  rewrite !forallb_concat, !forallb_map. simpl forallb. rewrite andb_true_r.
  intros (P & S & E & X & K & J).
  rewrite !existsb_as_forallb.
  repeat split.
  - apply negb_false_iff. rewrite <- P. now apply forallb_pointwise.
  - apply negb_true_iff in S. exact S.
  - apply negb_false_iff. rewrite <- E. apply forallb_pointwise. intros edu.
    unfold edu_hit. rewrite existsb_as_forallb, negb_involutive.
    now rewrite forallb_map.
  - apply negb_false_iff. rewrite <- X. now apply forallb_pointwise.
  - apply negb_false_iff. rewrite <- K. apply forallb_pointwise. intros item.
    unfold skill_hit. simpl forallb. rewrite negb_orb, existsb_as_forallb.
    now rewrite negb_involutive.
  - apply negb_false_iff. rewrite <- J. now apply forallb_pointwise.
Qed.

(** The guard of [search_resume] (line 269): for every empty or
    all-white-space keyword, on every document, it returns the fixed
    prompt and raises nothing. *)
Lemma search_resume_prompts_for_blank_keyword
  (keyword : string) (resume_data : ResumeData) :
  blank keyword = true ->
  search_resume keyword resume_data = Ok prompt_for_keyword.
Proof.
  intros B. unfold search_resume.
  assert (G : negb (nonempty keyword) || negb (nonempty (strip keyword))
              = blank keyword).
  { rewrite strip_blank, negb_involutive. destruct keyword; reflexivity. }
  now rewrite G, B.
Qed.

(** C7. The claim fails on the code, by a slip of the code.  The
    document of [models/resume.py] may carry [summary: null].  On such a
    document the keyword [zzz] is not blank and matches no field of any
    section, and it occurs in none of the texts the search examines
    either; yet [search_resume] returns no not-found message: line 281
    calls [summary.lower()] on [None] and the search raises
    [AttributeError].  The default of [resume_data.get("summary", "")]
    covers the absent key only: with the key left out the same search
    returns the not-found message naming the keyword, and
    [get_personal_info] renders the document with the [null] summary
    without raising.  Blank keywords get the prompt on this document as
    on any other. *)
Theorem search_resume_raises_where_nothing_matches :
  blank "zzz" = false
  /\ no_field_matches "zzz" null_summary_resume = true
  /\ occurs_nowhere "zzz" null_summary_resume = true
  /\ search_resume "zzz" null_summary_resume = Raise (AttributeError "lower")
  /\ search_resume "zzz" null_summary_resume <> Ok (not_found "zzz")
  /\ search_resume "zzz" absent_summary_resume
     = Ok "No information found related to 'zzz' in the resume."
  /\ get_personal_info None null_summary_resume
     = Ok (PyStr.join nl
             ["Name: Test User"; "Location: Not specified";
              "Email: test@example.com"])
  /\ search_resume "" null_summary_resume
     = Ok "Please provide a keyword to search for."
  /\ search_resume "   " null_summary_resume
     = Ok "Please provide a keyword to search for.".
Proof.
  split; [reflexivity|]. split; [reflexivity|]. split; [reflexivity|].
  split; [reflexivity|]. split; [discriminate|].
  split; [reflexivity|]. split; [reflexivity|]. split; reflexivity.
Qed.

(** Further inputs on which a keyword that matches no field gets a
    section instead of the not-found message, because the search reads
    the entry as one text and a list as [str] writes it: the phrase
    [corp software] lies across the company and the position of the test
    document's experience entry, and [['] is the opening of a list as
    [str] writes it. *)
Lemma search_resume_finds_phrase_across_fields :
  blank "corp software" = false
  /\ no_field_matches "corp software" SAMPLE_RESUME_DATA = true
  /\ search_resume "corp software" SAMPLE_RESUME_DATA
     <> Ok (not_found "corp software").
Proof.
  split; [reflexivity|]. split; [reflexivity|]. vm_compute. discriminate.
Qed.

Lemma search_resume_finds_list_punctuation :
  blank "['" = false
  /\ no_field_matches "['" SAMPLE_RESUME_DATA = true
  /\ search_resume "['" SAMPLE_RESUME_DATA <> Ok (not_found "['").
Proof.
  split; [reflexivity|]. split; [reflexivity|]. vm_compute. discriminate.
Qed.

(** C2. The claim fails on the code.  The accomplishment
    [Cut the firm's "time to market"] contains the keyword [firm's], so
    the experience section has a matching field, and [get_experience]
    renders the section; but the search looks the keyword up in [str] of
    the description list, where the single quote is written with a
    backslash before it, finds nothing, and answers that no information
    was found. *)
Theorem search_resume_misses_quoted_bullet :
  blank "firm's" = false
  /\ occurs_in "firm's" quoted_bullet = true
  /\ entries_match "firm's" (experience quoted_bullet_resume) = true
  /\ (exists text, get_experience None quoted_bullet_resume = Ok text)
  /\ search_resume "firm's" quoted_bullet_resume = Ok (not_found "firm's")
  /\ ~ search_resume_spec "firm's" quoted_bullet_resume.
Proof.
  split; [reflexivity|]. split; [reflexivity|]. split; [reflexivity|].
  split; [eexists; vm_compute; reflexivity|]. split; [reflexivity|].
  intros (p & e & x & s & j & H & _ & _ & Hx & _).
  rewrite (Hx eq_refl) in H.
  destruct p, e, s, j; vm_compute in H; discriminate H.
Qed.

(** Two more inputs on which a section with a matching field is not
    appended: a [null] summary makes the search raise before it reaches
    the skills, and an experience entry without [end_date] makes the
    rendering of the matched experience section raise. *)
Lemma search_resume_raises_on_null_summary :
  skills_match "python" null_summary_resume = true
  /\ search_resume "python" null_summary_resume = Raise (AttributeError "lower").
Proof. split; reflexivity. Qed.

Lemma search_resume_raises_without_end_date :
  entries_match "corp" (experience no_end_date_resume) = true
  /\ search_resume "corp" no_end_date_resume = Raise (KeyError "end_date").
Proof. split; reflexivity. Qed.

(* ===================================================================== *)
(** ** The keyword search outside the defects                             *)
(* ===================================================================== *)

Module ReprFacts.
Import PyStrFacts.

#[local] Arguments String.append !s1 s2 : simpl nomatch.

Ltac each_char c := destruct c as [[] [] [] [] [] [] [] []].

(** A character whose lower-case form is plain is plain. *)
Lemma plain_char_unlower (c : ascii) :
  plain_char (lower_char c) = true -> plain_char c = true.
Proof. each_char c; vm_compute; intros H; exact H. Qed.

Lemma plain_char_lower (c : ascii) :
  plain_char c = true -> plain_char (lower_char c) = true.
Proof. each_char c; vm_compute; intros H; exact H. Qed.

Lemma plain_lower (s : string) : plain s = true -> plain (PyStr.lower s) = true.
Proof.
  induction s as [|c s IH]; simpl; [reflexivity|].
  rewrite !andb_true_iff. intros [Hc Hs].
  split; [now apply plain_char_lower | now apply IH].
Qed.

Lemma plain_unlower (s : string) : plain (PyStr.lower s) = true -> plain s = true.
Proof.
  induction s as [|c s IH]; simpl; [reflexivity|].
  rewrite !andb_true_iff. intros [Hc Hs].
  split; [now apply plain_char_unlower | now apply IH].
Qed.

(** [repr] writes a plain character that is not the quote as it is. *)
Lemma repr_char_plain (quote c : ascii) :
  plain_char c = true -> Ascii.eqb c quote = false ->
  repr_char quote c = String c "".
Proof.
  each_char c; intros Hp Hq; vm_compute in Hp; try discriminate Hp;
    unfold repr_char; rewrite Hq; reflexivity.
Qed.

Lemma repr_body_plain (quote : ascii) (s : string) :
  plain s = true -> has_char quote s = false -> repr_body quote s = s.
Proof.
  induction s as [|c s IH]; simpl; [reflexivity|].
  rewrite andb_true_iff, orb_false_iff. intros [Hc Hs] [Hq Hr].
  rewrite repr_char_plain; [simpl; now rewrite IH | exact Hc |].
  rewrite Ascii.eqb_sym. exact Hq.
Qed.

Lemma repr_body_append (quote : ascii) (a b : string) :
  repr_body quote (a ++ b) = repr_body quote a ++ repr_body quote b.
Proof.
  induction a as [|c a IH]; simpl; [reflexivity|].
  now rewrite IH, append_assoc.
Qed.

Lemma has_char_append (c : ascii) (a b : string) :
  has_char c (a ++ b) = has_char c a || has_char c b.
Proof.
  induction a as [|d a IH]; simpl; [reflexivity|].
  now rewrite IH, orb_assoc.
Qed.

Lemma plain_no_squote (s : string) : plain s = true -> has_char squote s = false.
Proof.
  induction s as [|c s IH]; simpl; [reflexivity|].
  rewrite andb_true_iff. intros [Hc Hs]. rewrite (IH Hs), orb_false_r.
  revert Hc. each_char c; vm_compute; intros H; congruence.
Qed.

(** Splitting the lower-case form of a string splits the string. *)
Lemma lower_split (s a b : string) :
  PyStr.lower s = a ++ b ->
  exists sa sb, s = sa ++ sb /\ PyStr.lower sa = a /\ PyStr.lower sb = b.
Proof.
  revert s. induction a as [|c a IH]; intros s H.
  - exists "", s. repeat split. exact H.
  - destruct s as [|d s]; simpl in H; [discriminate|].
    injection H as Hc Hs. destruct (IH _ Hs) as (sa & sb & -> & Ha & Hb).
    exists (String d sa), sb. repeat split; [simpl; now rewrite Hc, Ha | exact Hb].
Qed.

(** A plain keyword found in an element of a list is found in [str] of
    the list. *)
Lemma contains_lower_repr (keyword_lower s : string) :
  plain keyword_lower = true ->
  contains keyword_lower (PyStr.lower s) = true ->
  contains keyword_lower (PyStr.lower (repr s)) = true.
Proof.
  intros Hp Hc.
  destruct (contains_split _ _ Hc) as (a & b & E).
  destruct (lower_split _ _ _ E) as (sa & sr & -> & _ & Er).
  destruct (lower_split _ _ _ Er) as (sm & sb & -> & Em & _).
  subst keyword_lower. apply plain_unlower in Hp.
  assert (Hq : has_char (repr_quote (sa ++ sm ++ sb)) sm = false).
  { unfold repr_quote.
    destruct (has_char squote (sa ++ sm ++ sb)
              && negb (has_char dquote (sa ++ sm ++ sb))) eqn:Q.
    - apply andb_true_iff in Q as [_ Q]. apply negb_true_iff in Q.
      rewrite !has_char_append, !orb_false_iff in Q. tauto.
    - now apply plain_no_squote. }
  unfold repr. set (q := repr_quote (sa ++ sm ++ sb)) in *.
  rewrite !repr_body_append, (repr_body_plain q sm Hp Hq).
  change (String q ?x) with (String q "" ++ x).
  rewrite !lower_append, !append_assoc.
  apply contains_append_l, contains_append_l, contains_prefix, prefix_append.
Qed.

Lemma join_cons (sep x : string) (l : list string) :
  PyStr.join sep (x :: l)
  = x ++ match l with [] => "" | _ :: _ => sep ++ PyStr.join sep l end.
Proof. destruct l; simpl; [now rewrite append_nil_r | reflexivity]. Qed.

(** What is found in a part is found in the joined text. *)
Lemma contains_lower_join (sub sep x : string) (l : list string) :
  In x l ->
  contains sub (PyStr.lower x) = true ->
  contains sub (PyStr.lower (PyStr.join sep l)) = true.
Proof.
  intros Hin Hc. induction l as [|y l IH]; [destruct Hin|].
  rewrite join_cons, lower_append. destruct Hin as [-> | Hin].
  - now apply contains_append_r.
  - apply contains_append_l. destruct l as [|z l]; [destruct Hin|].
    rewrite lower_append. apply contains_append_l. now apply IH.
Qed.

Lemma contains_lower_str_list (keyword_lower : string) (l : list string) :
  plain keyword_lower = true ->
  existsb (fun s => contains keyword_lower (PyStr.lower s)) l = true ->
  contains keyword_lower (PyStr.lower (str_list l)) = true.
Proof.
  intros Hp He. apply existsb_exists in He as (s & Hin & Hc).
  unfold str_list. rewrite !lower_append.
  apply contains_append_l, contains_append_r.
  apply (contains_lower_join _ _ (repr s)).
  - now apply in_map.
  - now apply contains_lower_repr.
Qed.

End ReprFacts.

Module SearchFacts.
Import ReprFacts.

#[local] Arguments String.append !s1 s2 : simpl nomatch.

(** *** What the renderings look like *)

Lemma opt_line_extends (d : pydict) (key label : string) (info info' : list string) :
  opt_line d key label info = Ok info' -> exists extra, info' = app info extra.
Proof.
  unfold opt_line. destruct (truthy (get d key)).
  - destruct (getitem d key); simpl; [|discriminate].
    intros [= <-]. now eexists.
  - intros [= <-]. exists []. now rewrite app_nil_r.
Qed.

Lemma opt_joined_extends (d : pydict) (key label : string)
  (info info' : list string) :
  opt_joined d key label info = Ok info' -> exists extra, info' = app info extra.
Proof.
  unfold opt_joined. destruct (truthy (get d key)).
  - destruct (getitem d key) as [v|]; simpl; [|discriminate].
    destruct (join ", " v); simpl; [|discriminate].
    intros [= <-]. now eexists.
  - intros [= <-]. exists []. now rewrite app_nil_r.
Qed.

Lemma fold_append_extends (f : string -> string) (l info : list string) :
  fold_left (fun info desc => append info (f desc)) l info = app info (map f l).
Proof.
  revert info. induction l as [|x l IH]; intros info; simpl.
  - now rewrite app_nil_r.
  - rewrite IH. unfold append. now rewrite <- app_assoc.
Qed.

(** The text joined from a list whose first line starts with [c]. *)
Lemma join_starts (c : ascii) (sep first : string) (l : list string) :
  PyStr.join sep (String c first :: l)
  = String c (first ++ match l with [] => "" | _ :: _ => sep ++ PyStr.join sep l end).
Proof. now rewrite join_cons. Qed.

Ltac bind_ok H :=
  match type of H with
  | bind ?m _ = Ok _ =>
      let E := fresh "E" in destruct m eqn:E; simpl in H; [|discriminate H]
  end.

Lemma get_personal_info_starts (query : option string)
  (resume_data : ResumeData) (text : string) :
  get_personal_info query resume_data = Ok text ->
  exists rest, text = String "N" rest.
Proof.
  unfold get_personal_info. intros H. unfold append in H. simpl app in H.
  bind_ok H. bind_ok H. do 4 bind_ok H.
  repeat match goal with
         | E : opt_line _ _ _ _ = Ok _ |- _ =>
             apply opt_line_extends in E; destruct E as [? ->]
         end.
  injection H as <-.
  destruct (truthy (summary_of resume_data)); simpl app; simpl String.append;
    eexists; first [apply join_starts | reflexivity].
Qed.

Lemma render_edu_starts (edu : pydict) (text : string) :
  render_edu edu = Ok text -> exists rest, text = String "I" rest.
Proof.
  unfold render_edu. intros H. do 6 bind_ok H.
  apply opt_line_extends in E3. destruct E3 as [? ->].
  apply opt_joined_extends in E4. destruct E4 as [? ->].
  injection H as <-. simpl app. simpl String.append.
  eexists; first [apply join_starts | reflexivity].
Qed.

Lemma render_exp_starts (exp : pydict) (text : string) :
  render_exp exp = Ok text -> exists rest, text = String "C" rest.
Proof.
  unfold render_exp. intros H. do 8 bind_ok H.
  apply opt_line_extends in E3. destruct E3 as [? ->].
  apply opt_joined_extends in E6. destruct E6 as [? ->].
  injection H as <-. rewrite fold_append_extends. unfold append.
  simpl app. simpl String.append. eexists; first [apply join_starts | reflexivity].
Qed.

(** A list of renderings, joined: empty, or starting as the first does. *)
Lemma joined_renderings_start {A : Type} (c : ascii) (f : A -> result string)
  (sep : string) (l : list A) (texts : list string) :
  (forall x text, f x = Ok text -> exists rest, text = String c rest) ->
  mapM f l = Ok texts ->
  PyStr.join sep texts = "" \/ exists rest, PyStr.join sep texts = String c rest.
Proof.
  intros Hf H. destruct l as [|x l]; simpl in H.
  - injection H as <-. now left.
  - bind_ok H. bind_ok H. injection H as <-.
    destruct (Hf _ _ E) as [rest ->]. right. eexists; first [apply join_starts | reflexivity].
Qed.

Lemma get_education_starts (resume_data : ResumeData) (text : string) :
  get_education None resume_data = Ok text ->
  text = "" \/ exists rest, text = String "I" rest.
Proof.
  unfold get_education, render_education. simpl. intros H. bind_ok H.
  injection H as <-.
  exact (joined_renderings_start _ _ _ _ _ render_edu_starts E).
Qed.

Lemma get_experience_starts (resume_data : ResumeData) (text : string) :
  get_experience None resume_data = Ok text ->
  text = "" \/ exists rest, text = String "C" rest.
Proof.
  unfold get_experience, render_experience. simpl. intros H. bind_ok H.
  injection H as <-.
  exact (joined_renderings_start _ _ _ _ _ render_exp_starts E).
Qed.

(** The skills text is empty or has a colon followed by a space, which no
    header has. *)
Lemma get_skills_not_a_header (resume_data : ResumeData) (text : string) :
  get_skills None resume_data = Ok text ->
  String.eqb "PROJECTS:" text = false.
Proof.
  unfold get_skills, render_skills. intros [= <-].
  destruct (skills resume_data) as [|item rest]; [reflexivity|].
  destruct (String.eqb "PROJECTS:"
              (PyStr.join nl (map render_skill (item :: rest)))) eqn:E;
    [|reflexivity].
  apply String.eqb_eq in E.
  assert (C : contains ": " (PyStr.join nl (map render_skill (item :: rest))) = true).
  { simpl map. rewrite join_cons. unfold render_skill.
    rewrite !PyStrFacts.append_assoc. apply PyStrFacts.contains_middle. }
  rewrite <- E in C. vm_compute in C. discriminate C.
Qed.

(** *** The loops as blocks *)

Lemma scan_section_block {A : Type} (hit : A -> bool) (entries : list A)
  (header : string) (rendering : result string) (results : list string) :
  not_in header results = true ->
  scan_section hit entries header rendering results
  = (try! block := section_block (existsb hit entries) header rendering in
     Ok (app results block)).
Proof.
  intros G. induction entries as [|entry rest IH]; simpl.
  - now rewrite app_nil_r.
  - destruct (hit entry); simpl; [|exact IH].
    rewrite G. destruct rendering; simpl; [|reflexivity].
    unfold append. now rewrite <- app_assoc.
Qed.

Lemma not_in_app (header : string) (l1 l2 : list string) :
  not_in header (app l1 l2) = not_in header l1 && not_in header l2.
Proof. unfold not_in. now rewrite existsb_app, negb_orb. Qed.

(** A block holds only its own header and its rendering. *)
Lemma block_avoids (header header' : string) (matched : bool)
  (rendering : result string) (block : list string) :
  String.eqb header header' = false ->
  (forall text, rendering = Ok text -> String.eqb header text = false) ->
  section_block matched header' rendering = Ok block ->
  not_in header block = true.
Proof.
  intros Hh Ht. unfold section_block. destruct matched.
  - destruct rendering as [text|]; simpl; [|discriminate].
    intros [= <-]. unfold not_in. simpl. now rewrite Hh, (Ht text eq_refl).
  - now intros [= <-].
Qed.

Lemma header_differs (c d : ascii) (header rest : string) :
  Ascii.eqb c d = false -> String.eqb (String c header) (String d rest) = false.
Proof. intros H. simpl. now rewrite H. Qed.

(** No rendering of an earlier section is the header of a later one. *)
Lemma personal_text_avoids (header : string) (resume_data : ResumeData)
  (text : string) :
  In header ["EDUCATION:"; "EXPERIENCE:"; "SKILLS:"; "PROJECTS:"] ->
  get_personal_info None resume_data = Ok text ->
  String.eqb header text = false.
Proof.
  intros Hin H. destruct (get_personal_info_starts _ _ _ H) as [rest ->].
  simpl in Hin. intuition (subst; reflexivity).
Qed.

Lemma education_text_avoids (header : string) (resume_data : ResumeData)
  (text : string) :
  In header ["EXPERIENCE:"; "SKILLS:"; "PROJECTS:"] ->
  get_education None resume_data = Ok text ->
  String.eqb header text = false.
Proof.
  intros Hin H. destruct (get_education_starts _ _ H) as [-> | [rest ->]];
    simpl in Hin; intuition (subst; reflexivity).
Qed.

Lemma experience_text_avoids (header : string) (resume_data : ResumeData)
  (text : string) :
  In header ["SKILLS:"; "PROJECTS:"] ->
  get_experience None resume_data = Ok text ->
  String.eqb header text = false.
Proof.
  intros Hin H. destruct (get_experience_starts _ _ H) as [-> | [rest ->]];
    simpl in Hin; intuition (subst; reflexivity).
Qed.

End SearchFacts.

Import ReprFacts SearchFacts.

Lemma first_block (matched : bool) (rendering : result string) :
  (if matched
   then try! text := rendering in Ok (append (append [] "PERSONAL INFO:") text)
   else Ok [])
  = section_block matched "PERSONAL INFO:" rendering.
Proof. destruct matched, rendering; reflexivity. Qed.

Lemma personal_hit_text (keyword_lower : string) (resume_data : ResumeData) :
  summary_is_text resume_data = true ->
  personal_hit keyword_lower resume_data
  = Ok (existsb (value_hit keyword_lower) (values (personal_info resume_data))
        || contains keyword_lower (PyStr.lower (str (summary_of resume_data)))).
Proof.
  unfold summary_is_text, personal_hit, summary_of. intros T.
  destruct (summary resume_data) as [[| | |]|]; try discriminate;
    simpl; apply orM_pure.
Qed.

Ltac avoid :=
  eapply block_avoids; cycle 2;
  [ eassumption
  | reflexivity
  | intros ? ?;
    first [ eapply personal_text_avoids; [simpl; tauto | eassumption]
          | eapply education_text_avoids; [simpl; tauto | eassumption]
          | eapply experience_text_avoids; [simpl; tauto | eassumption]
          | eapply get_skills_not_a_header; eassumption ] ].

(** For a keyword that is not blank, on a document whose summary is absent
    or a string, the output of [search_resume] is made of the blocks of
    the sections its five conditions select, in the fixed order, each
    block appended once. *)
Lemma search_resume_blocks (keyword : string) (resume_data : ResumeData) :
  blank keyword = false ->
  summary_is_text resume_data = true ->
  search_resume keyword resume_data
  = search_output keyword resume_data
      (existsb (value_hit (PyStr.lower keyword))
         (values (personal_info resume_data))
       || contains (PyStr.lower keyword)
            (PyStr.lower (str (summary_of resume_data))))
      (existsb (edu_hit (PyStr.lower keyword)) (education resume_data))
      (existsb (entry_hit (PyStr.lower keyword)) (experience resume_data))
      (existsb (skill_hit (PyStr.lower keyword)) (skills resume_data))
      (existsb (entry_hit (PyStr.lower keyword)) (projects resume_data)).
Proof.
  intros B T. unfold search_resume, search_output.
  assert (G : negb (nonempty keyword) || negb (nonempty (strip keyword))
              = blank keyword).
  { rewrite strip_blank, negb_involutive. destruct keyword; reflexivity. }
  rewrite G, B. cbv zeta. rewrite (personal_hit_text _ _ T).
  unfold bind at 1. rewrite first_block.
  destruct (section_block _ "PERSONAL INFO:" _) as [b1|] eqn:B1;
    [|reflexivity].
  unfold bind at 1 6.
  rewrite scan_section_block by avoid.
  destruct (section_block _ "EDUCATION:" _) as [b2|] eqn:B2; [|reflexivity].
  unfold bind at 1 2 6.
  rewrite scan_section_block by (rewrite !not_in_app, !andb_true_iff; repeat split; avoid).
  destruct (section_block _ "EXPERIENCE:" _) as [b3|] eqn:B3; [|reflexivity].
  unfold bind at 1 2 5.
  rewrite scan_section_block by (rewrite !not_in_app, !andb_true_iff; repeat split; avoid).
  destruct (section_block _ "SKILLS:" _) as [b4|] eqn:B4; [|reflexivity].
  unfold bind at 1 2 4.
  rewrite scan_section_block by (rewrite !not_in_app, !andb_true_iff; repeat split; avoid).
  destruct (section_block _ "PROJECTS:" _) as [b5|] eqn:B5; [|reflexivity].
  unfold bind. rewrite <- !app_assoc.
  now destruct (app b1 (app b2 (app b3 (app b4 b5)))).
Qed.

Lemma existsb_impl {A : Type} (p q : A -> bool) (l : list A) :
  (forall x, In x l -> p x = true -> q x = true) ->
  existsb p l = true -> existsb q l = true.
Proof.
  intros H E. apply existsb_exists in E as (x & Hin & Hp).
  apply existsb_exists. exists x. split; [exact Hin | now apply H].
Qed.

(** A plain keyword that occurs in a field is found in what the search
    reads of that field. *)
Lemma in_field_hit (keyword : string) (v : pyval) :
  plain keyword = true ->
  in_field keyword v = true ->
  value_hit (PyStr.lower keyword) v = true /\ is_str_or_list v = true.
Proof.
  intros Hp. apply plain_lower in Hp.
  destruct v as [| |s|l]; simpl; try discriminate; intros H; (split; [|reflexivity]).
  - exact H.
  - unfold value_hit. simpl str. now apply contains_lower_str_list.
Qed.

Lemma entry_fields_hit_edu (keyword : string) (edu : pydict) :
  plain keyword = true ->
  existsb (in_field keyword) (values edu) = true ->
  edu_hit (PyStr.lower keyword) edu = true.
Proof.
  intros Hp E. apply existsb_exists in E as (v & Hin & Hv).
  destruct (in_field_hit _ _ Hp Hv) as [Hh Hs].
  unfold edu_hit. apply existsb_exists. exists v. split; [|exact Hh].
  apply filter_In. now split.
Qed.

Lemma entry_fields_hit_text (keyword : string) (entry : pydict) :
  plain keyword = true ->
  existsb (in_field keyword) (values entry) = true ->
  entry_hit (PyStr.lower keyword) entry = true.
Proof.
  intros Hp E. apply existsb_exists in E as (v & Hin & Hv).
  destruct (in_field_hit _ _ Hp Hv) as [Hh Hs].
  unfold entry_hit, entry_text.
  apply (contains_lower_join _ _ (str v)); [|exact Hh].
  apply in_map, filter_In. now split.
Qed.

(** Outside the defects C2 holds: for every keyword that is not blank and
    is plain (printable characters, no backslash, no single quote), on a
    document whose summary is absent or a string, [search_resume] returns
    what [search_output] describes - the blocks of header label and
    unfiltered rendering, once each, in the order personal info,
    education, experience, skills, projects - and every section with a
    matching field is among them. *)
Theorem search_resume_finds_matching_sections
  (keyword : string) (resume_data : ResumeData) :
  blank keyword = false ->
  plain keyword = true ->
  summary_is_text resume_data = true ->
  search_resume_spec keyword resume_data.
Proof.
  intros B Hp T. unfold search_resume_spec.
  do 5 eexists. split; [apply (search_resume_blocks _ _ B T)|].
  repeat split.
  - unfold personal_matches. rewrite !orb_true_iff. intros [E | S].
    + left. revert E. apply existsb_impl. intros v _ Hv.
      now apply in_field_hit.
    + right. now apply (in_field_hit _ _ Hp).
  - unfold entries_match. apply existsb_impl. intros edu _.
    now apply entry_fields_hit_edu.
  - unfold entries_match. apply existsb_impl. intros entry _.
    now apply entry_fields_hit_text.
  - intros S. exact S.
  - unfold entries_match. apply existsb_impl. intros entry _.
    now apply entry_fields_hit_text.
Qed.

Lemma search_resume_finds_matching_sections_witness :
  search_resume_spec "Python" SAMPLE_RESUME_DATA.
Proof.
  apply (search_resume_finds_matching_sections "Python" SAMPLE_RESUME_DATA);
    reflexivity.
Defined.

(* ===================================================================== *)
(** ** Further properties of the accessors                                *)
(* ===================================================================== *)

Import Filters.

Lemma isspace_lower_char (c : ascii) : isspace (lower_char c) = isspace c.
Proof. each_char c; reflexivity. Qed.

Lemma blank_lower (s : string) : blank (PyStr.lower s) = blank s.
Proof.
  induction s as [|c s IH]; simpl; [reflexivity|].
  now rewrite isspace_lower_char, IH.
Qed.

Lemma blank_same_case (q1 q2 : string) :
  PyStr.lower q1 = PyStr.lower q2 -> blank q1 = blank q2.
Proof. intros H. now rewrite <- (blank_lower q1), H, blank_lower. Qed.

(** X1. The four filtered accessors do not look at the case of the filter:
    two filters with the same lower-case form give the same result. *)
Theorem filters_ignore_case
  (query1 query2 : string) (resume_data : ResumeData) :
  PyStr.lower query1 = PyStr.lower query2 ->
  get_education (Some query1) resume_data = get_education (Some query2) resume_data
  /\ get_experience (Some query1) resume_data
     = get_experience (Some query2) resume_data
  /\ get_skills (Some query1) resume_data = get_skills (Some query2) resume_data
  /\ get_projects (Some query1) resume_data
     = get_projects (Some query2) resume_data.
Proof.
  intros H.
  assert (G : given (Some query1) = given (Some query2))
    by (rewrite !given_nonblank; f_equal; now apply blank_same_case).
  unfold get_education, get_experience, get_skills, get_projects.
  rewrite G, H. repeat split.
Qed.

Lemma filters_ignore_case_witness :
  get_skills (Some "PROGRAMMING") SAMPLE_RESUME_DATA
  = get_skills (Some "programming") SAMPLE_RESUME_DATA.
Proof.
  apply (filters_ignore_case "PROGRAMMING" "programming" SAMPLE_RESUME_DATA
           eq_refl).
Defined.

Lemma search_guard (keyword : string) :
  negb (nonempty keyword) || negb (nonempty (strip keyword)) = blank keyword.
Proof. rewrite strip_blank, negb_involutive. destruct keyword; reflexivity. Qed.

(** Two computations that run the same step first are related when their
    continuations are. *)
Lemma bind_related {A B : Type} (R : result B -> result B -> Prop)
  (m : result A) (k1 k2 : A -> result B) :
  (forall a, R (k1 a) (k2 a)) ->
  (forall e, R (Raise e) (Raise e)) ->
  R (bind m k1) (bind m k2).
Proof. intros Hk He. destruct m; simpl; [apply Hk | apply He]. Qed.

(** X2. [search_resume] does not look at the case of the keyword: two
    keywords with the same lower-case form give the same result, except
    that the not-found message quotes each keyword as it was typed. *)
Theorem search_ignores_case
  (keyword1 keyword2 : string) (resume_data : ResumeData) :
  PyStr.lower keyword1 = PyStr.lower keyword2 ->
  search_resume keyword1 resume_data = search_resume keyword2 resume_data
  \/ (search_resume keyword1 resume_data = Ok (not_found keyword1)
      /\ search_resume keyword2 resume_data = Ok (not_found keyword2)).
Proof.
  intros H. unfold search_resume.
  rewrite !search_guard, (blank_same_case _ _ H), H.
  destruct (blank keyword2); [now left|]. cbv zeta.
  do 6 (apply (bind_related
                 (fun x y => x = y
                             \/ (x = Ok (not_found keyword1)
                                 /\ y = Ok (not_found keyword2))));
        [intros ? | intros; now left]).
  match goal with
  | |- context [match ?results with [] => _ | _ :: _ => _ end] =>
      destruct results
  end; [right; split; reflexivity | left; reflexivity].
Qed.

Lemma search_ignores_case_witness :
  search_resume "PYTHON" SAMPLE_RESUME_DATA
  = search_resume "python" SAMPLE_RESUME_DATA.
Proof.
  destruct (search_ignores_case "PYTHON" "python" SAMPLE_RESUME_DATA eq_refl)
    as [E | [N _]]; [exact E | vm_compute in N; discriminate N].
Defined.

Lemma any_contains_tags (query : string) (d : pydict) :
  absent_or_list d "technologies" = true ->
  any_contains (PyStr.lower query) (get_default d "technologies" (VList []))
  = Ok (existsb (occurs_in query) (tags d)).
Proof.
  unfold absent_or_list, get_default, tags.
  destruct (lookup d "technologies") as [[| | |l]|]; try discriminate;
    reflexivity.
Qed.

(** On an entry that follows the schema, the test of the experience filter
    does not raise and is the selection the docstring describes. *)
Lemma exp_matches_selected (query : string) (exp : pydict) :
  filterable_exp exp = true ->
  exp_matches (PyStr.lower query) exp = Ok (exp_selected query exp).
Proof.
  unfold filterable_exp. rewrite !andb_true_iff. intros ((Hc & Hp) & Ht).
  apply has_str_lookup in Hc, Hp.
  destruct Hc as [sc Hc], Hp as [sp Hp].
  unfold exp_matches, exp_selected.
  rewrite (key_contains_str _ _ _ _ Hc), (key_contains_str _ _ _ _ Hp).
  rewrite (in_text_field_str _ _ _ _ Hc), (in_text_field_str _ _ _ _ Hp).
  rewrite (any_contains_tags _ _ Ht), !orM_pure. now rewrite orb_assoc.
Qed.







Lemma contains_in_join (sub sep x : string) (l : list string) :
  In x l -> contains sub x = true -> contains sub (PyStr.join sep l) = true.
Proof.
  intros Hin Hc. induction l as [|y l IH]; [destruct Hin|].
  rewrite join_cons. destruct Hin as [-> | Hin].
  - now apply contains_append_r.
  - apply contains_append_l. destruct l as [|z l]; [destruct Hin|].
    apply contains_append_l. now apply IH.
Qed.

Lemma contains_refl (s : string) : contains s s = true.
Proof.
  apply contains_prefix. rewrite <- (append_nil_r s) at 2. apply prefix_append.
Qed.

Lemma mapM_in {A B : Type} (f : A -> result B) (l : list A) (ys : list B)
  (x : A) :
  mapM f l = Ok ys -> In x l -> exists y, f x = Ok y /\ In y ys.
Proof.
  revert ys. induction l as [|a l IH]; intros ys H Hin; [destruct Hin|].
  simpl in H. destruct (f a) as [b|] eqn:Fa; simpl in H; [|discriminate].
  destruct (mapM f l) as [bs|]; simpl in H; [|discriminate].
  injection H as <-. destruct Hin as [<- | Hin].
  - exists b. split; [exact Fa | now left].
  - destruct (IH bs eq_refl Hin) as (y & Fy & Hy). exists y. split; [exact Fy | now right].
Qed.

Lemma present_lookup (d : pydict) (key : string) :
  present d key = true -> exists v, lookup d key = Some v.
Proof.
  unfold present. destruct (lookup d key) as [v|]; [|discriminate].
  intros _. now exists v.
Qed.

(** With both keys present [get_personal_info] returns. *)
Lemma get_personal_info_total (query : option string) (resume_data : ResumeData) :
  present (personal_info resume_data) "name" = true ->
  present (personal_info resume_data) "email" = true ->
  exists text, get_personal_info query resume_data = Ok text.
Proof.
  intros Hn He. apply present_lookup in Hn, He.
  destruct Hn as [name Hn], He as [email He].
  unfold get_personal_info, getitem. rewrite Hn, He. simpl bind.
  repeat match goal with
         | |- context [opt_line ?d ?k ?l ?i] =>
             destruct (opt_line_total d k l i) as [? ->]; simpl bind
         end.
  now eexists.
Qed.

(** The second line of the text is the location line. *)
Lemma get_personal_info_location_line (query : option string)
  (resume_data : ResumeData) (text : string) :
  get_personal_info query resume_data = Ok text ->
  contains
    ("Location: "
       ++ str (get_default (personal_info resume_data) "location"
                 (VStr "Not specified")))
    text = true.
Proof.
  unfold get_personal_info. intros H. unfold append in H. simpl app in H.
  bind_ok H. bind_ok H. do 4 bind_ok H.
  repeat match goal with
         | E : opt_line _ _ _ _ = Ok _ |- _ =>
             apply opt_line_extends in E; destruct E as [? ->]
         end.
  injection H as <-.
  eapply contains_in_join; [|apply contains_refl].
  destruct (truthy (summary_of resume_data)); simpl; right; now left.
Qed.

(** X5. [get_personal_info] needs the keys [name] and [email] and nothing
    else: without [name] it raises [KeyError('name')], with [name] and
    without [email] it raises [KeyError('email')], and with both it
    returns a text that has the location line, which reads
    [Location: Not specified] when the document has no [location] key. *)
Theorem get_personal_info_needs_name_and_email
  (query : option string) (resume_data : ResumeData) :
  let info := personal_info resume_data in
  (present info "name" = false ->
   get_personal_info query resume_data = Raise (KeyError "name"))
  /\ (present info "name" = true -> present info "email" = false ->
      get_personal_info query resume_data = Raise (KeyError "email"))
  /\ (present info "name" = true -> present info "email" = true ->
      exists text,
        get_personal_info query resume_data = Ok text
        /\ contains
             ("Location: "
                ++ str (get_default info "location" (VStr "Not specified")))
             text = true
        /\ (present info "location" = false ->
            contains "Location: Not specified" text = true)).
Proof.
  cbv zeta. split; [|split].
  - unfold present, get_personal_info, getitem.
    destruct (lookup (personal_info resume_data) "name");
      [discriminate | reflexivity].
  - unfold present, get_personal_info, getitem.
    destruct (lookup (personal_info resume_data) "name"); [|discriminate].
    destruct (lookup (personal_info resume_data) "email");
      [discriminate | reflexivity].
  - intros Hn He.
    destruct (get_personal_info_total query resume_data Hn He) as [text E].
    pose proof (get_personal_info_location_line _ _ _ E) as L.
    exists text. repeat split; [exact E | exact L |].
    intros Hloc. unfold present in Hloc. unfold get_default in L.
    destruct (lookup (personal_info resume_data) "location");
      [discriminate | exact L].
Qed.

Lemma get_personal_info_needs_name_and_email_witness :
  get_personal_info None
    {| personal_info := [("email", VStr "test@example.com")];
       summary := None; education := []; experience := [];
       skills := []; projects := [] |}
  = Raise (KeyError "name")
  /\ exists text,
       get_personal_info None two_schools = Ok text
       /\ contains "Location: Not specified" text = true.
Proof.
  split.
  - apply (get_personal_info_needs_name_and_email None
             {| personal_info := [("email", VStr "test@example.com")];
                summary := None; education := []; experience := [];
                skills := []; projects := [] |}).
    reflexivity.
  - destruct (get_personal_info_needs_name_and_email None two_schools)
      as (_ & _ & K).
    destruct (K eq_refl eq_refl) as (text & E & _ & L).
    exists text. split; [exact E | apply L; reflexivity].
Defined.

Lemma absent_or_list_opt_list (d : pydict) (key : string) :
  absent_or_list d key = true -> opt_list d key = true.
Proof.
  unfold absent_or_list, opt_list.
  now destruct (lookup d key) as [[| | |]|].
Qed.

Lemma render_exp_total (exp : pydict) :
  valid_exp exp = true -> exists text, render_exp exp = Ok text.
Proof.
  unfold valid_exp, filterable_exp. rewrite !andb_true_iff.
  intros (((((Hc & Hp) & Ht) & Hs) & He) & Hd).
  apply has_str_lookup in Hc, Hp, Hs. apply present_lookup in He.
  destruct Hc as [sc Hc], Hp as [sp Hp], Hs as [ss Hs], He as [ve He].
  unfold render_exp, getitem. rewrite Hc, Hp, Hs, He. simpl bind.
  match goal with |- context [opt_line ?d ?k ?l ?i] =>
    destruct (opt_line_total d k l i) as [info1 ->] end. simpl bind.
  unfold is_list in Hd.
  destruct (lookup exp "description") as [[| | |bullets]|]; try discriminate.
  simpl bind.
  match goal with |- context [opt_joined ?d ?k ?l ?i] =>
    destruct (opt_joined_total d k l i (absent_or_list_opt_list _ _ Ht))
      as [info2 ->] end.
  simpl bind. now eexists.
Qed.

Lemma render_experience_total (entries : list pydict) :
  forallb valid_exp entries = true ->
  exists text, render_experience entries = Ok text.
Proof.
  intros V. unfold render_experience.
  destruct (mapM_total render_exp entries) as [ys ->].
  - intros e He. apply render_exp_total.
    rewrite forallb_forall in V. now apply V.
  - simpl. now eexists.
Qed.

Lemma valid_exp_filterable (entries : list pydict) :
  forallb valid_exp entries = true -> forallb filterable_exp entries = true.
Proof.
  rewrite !forallb_forall. intros V e He. specialize (V e He).
  unfold valid_exp in V. rewrite !andb_true_iff in V. tauto.
Qed.

(** What [get_experience] does with a filter that is not blank. *)
Lemma get_experience_filtered (query : string) (resume_data : ResumeData) :
  forallb filterable_exp (experience resume_data) = true ->
  blank query = false ->
  get_experience (Some query) resume_data
  = render_experience
      (or_all (List.filter (exp_selected query) (experience resume_data))
         (experience resume_data)).
Proof.
  intros V B. unfold get_experience. rewrite given_nonblank, B. simpl negb.
  cbv iota. rewrite (filterM_pure _ (exp_selected query)); [reflexivity|].
  intros e He. apply exp_matches_selected.
  rewrite forallb_forall in V. now apply V.
Qed.

(** X6. [get_experience] reads [end_date] with [exp['end_date']]: when
    every experience entry follows the schema and has the key (with a
    date or [null]) a text is returned for every filter, and when the
    first entry has its company, position and start date but no
    [end_date] key the unfiltered call raises [KeyError('end_date')]. *)
Theorem get_experience_needs_end_date (resume_data : ResumeData) :
  (forallb valid_exp (experience resume_data) = true ->
   forall query, exists text, get_experience query resume_data = Ok text)
  /\ (forall exp rest,
        experience resume_data = exp :: rest ->
        present exp "company" = true ->
        present exp "position" = true ->
        present exp "start_date" = true ->
        present exp "end_date" = false ->
        get_experience None resume_data = Raise (KeyError "end_date")).
Proof.
  split.
  - intros V [query|]; [|now apply render_experience_total].
    destruct (blank query) eqn:B.
    + unfold get_experience. rewrite given_nonblank, B. simpl.
      now apply render_experience_total.
    + rewrite (get_experience_filtered _ _ (valid_exp_filterable _ V) B).
      apply render_experience_total.
      destruct (List.filter (exp_selected query) (experience resume_data)) eqn:F;
        simpl or_all; [exact V|].
      rewrite <- F. now apply forallb_filter.
  - intros exp rest E Hc Hp Hs He.
    apply present_lookup in Hc, Hp, Hs.
    destruct Hc as [vc Hc], Hp as [vp Hp], Hs as [vs Hs].
    unfold get_experience, render_experience. rewrite E. simpl.
    unfold render_exp, getitem. rewrite Hc, Hp, Hs.
    unfold present in He. destruct (lookup exp "end_date"); [discriminate|].
    reflexivity.
Qed.

Lemma get_experience_needs_end_date_witness :
  (exists text, get_experience (Some "python") SAMPLE_RESUME_DATA = Ok text)
  /\ get_experience None no_end_date_resume = Raise (KeyError "end_date").
Proof.
  destruct (get_experience_needs_end_date SAMPLE_RESUME_DATA) as [T _].
  destruct (get_experience_needs_end_date no_end_date_resume) as [_ K].
  split.
  - apply T. reflexivity.
  - eapply K; reflexivity.
Defined.

(** The duration line of a rendered entry. *)
Lemma render_exp_duration_line (exp : pydict) (start_date end_date : pyval)
  (text : string) :
  render_exp exp = Ok text ->
  lookup exp "start_date" = Some start_date ->
  lookup exp "end_date" = Some end_date ->
  contains
    ("Duration: " ++ str start_date ++ " - "
       ++ str (or_else end_date (VStr "Present")))
    text = true.
Proof.
  unfold render_exp. intros H Hs He. unfold getitem in H at 3 4.
  rewrite Hs, He in H. do 2 bind_ok H. simpl bind in H. do 4 bind_ok H.
  repeat match goal with
         | E : opt_line _ _ _ _ = Ok _ |- _ =>
             apply opt_line_extends in E; destruct E as [? ->]
         | E : opt_joined _ _ _ _ = Ok _ |- _ =>
             apply opt_joined_extends in E; destruct E as [? ->]
         end.
  injection H as <-. rewrite fold_append_extends. unfold append.
  eapply contains_in_join; [|apply contains_refl].
  simpl. right. right. now left.
Qed.

(** X7. A position whose [end_date] is [null] or empty is shown as
    current: when every experience entry follows the schema, the text of
    [get_experience] has, for such an entry, the line
    [Duration: <start_date> - Present]. *)
Theorem current_position_reads_present
  (resume_data : ResumeData) (exp : pydict) (start_date : string)
  (end_date : pyval) :
  forallb valid_exp (experience resume_data) = true ->
  In exp (experience resume_data) ->
  lookup exp "start_date" = Some (VStr start_date) ->
  lookup exp "end_date" = Some end_date ->
  truthy end_date = false ->
  exists text,
    get_experience None resume_data = Ok text
    /\ contains ("Duration: " ++ start_date ++ " - Present") text = true.
Proof.
  intros V Hin Hs He Hf.
  destruct (render_experience_total _ V) as [text E].
  exists text. split; [exact E|].
  unfold render_experience in E.
  destruct (mapM render_exp (experience resume_data)) as [texts|] eqn:M;
    simpl in E; [|discriminate].
  injection E as <-.
  destruct (mapM_in _ _ _ _ M Hin) as (t & Rt & Ht).
  apply (contains_in_join _ _ t); [exact Ht|].
  pose proof (render_exp_duration_line _ _ _ _ Rt Hs He) as D.
  unfold or_else in D. rewrite Hf in D. exact D.
Qed.

Lemma current_position_reads_present_witness :
  exists text,
    get_experience None SAMPLE_RESUME_DATA = Ok text
    /\ contains "Duration: 2020-06 - Present" text = true.
Proof.
  apply (current_position_reads_present SAMPLE_RESUME_DATA
           [ ("company", VStr "Test Corp");
             ("position", VStr "Software Engineer");
             ("start_date", VStr "2020-06");
             ("end_date", VNone);
             ("description", VList ["Built test applications"; "Led team projects"]);
             ("technologies", VList ["Python"; "JavaScript"]) ]
           "2020-06" VNone);
    first [reflexivity | now left].
Defined.

(** The five conditions of [search_resume] all fail only when the keyword
    occurs in none of the scanned texts. *)
Lemma no_hit_nothing_scanned (keyword : string) (resume_data : ResumeData) :
  existsb (value_hit (PyStr.lower keyword)) (values (personal_info resume_data))
  || contains (PyStr.lower keyword) (PyStr.lower (str (summary_of resume_data)))
  = false ->
  existsb (edu_hit (PyStr.lower keyword)) (education resume_data) = false ->
  existsb (entry_hit (PyStr.lower keyword)) (experience resume_data) = false ->
  existsb (skill_hit (PyStr.lower keyword)) (skills resume_data) = false ->
  existsb (entry_hit (PyStr.lower keyword)) (projects resume_data) = false ->
  occurs_nowhere keyword resume_data = true.
Proof.
  rewrite orb_false_iff. intros [P S] E X K J.
  unfold occurs_nowhere, scanned_texts.
  rewrite !forallb_app, !andb_true_iff.
  rewrite !forallb_concat, !forallb_map. simpl forallb. rewrite andb_true_r.
  rewrite existsb_as_forallb in P. rewrite existsb_as_forallb in E.
  rewrite existsb_as_forallb in X. rewrite existsb_as_forallb in K.
  rewrite existsb_as_forallb in J.
  apply negb_false_iff in P, E, X, K, J.
  repeat split.
  - rewrite <- P. now apply forallb_pointwise.
  - apply negb_true_iff. exact S.
  - rewrite <- E. apply forallb_pointwise. intros edu.
    unfold edu_hit. rewrite existsb_as_forallb, negb_involutive.
    now rewrite forallb_map.
  - rewrite <- X. now apply forallb_pointwise.
  - rewrite <- K. apply forallb_pointwise. intros item.
    unfold skill_hit. simpl forallb. rewrite negb_orb, existsb_as_forallb.
    now rewrite negb_involutive.
  - rewrite <- J. now apply forallb_pointwise.
Qed.

Lemma block_shape (matched : bool) (header : string) (rendering : result string)
  (block : list string) :
  section_block matched header rendering = Ok block ->
  (matched = false /\ block = [])
  \/ (matched = true /\ exists text, block = [header; text]).
Proof.
  unfold section_block. destruct matched.
  - destruct rendering as [text|]; simpl; [|discriminate].
    intros [= <-]. right. split; [reflexivity | now exists text].
  - intros [= <-]. now left.
Qed.

(** An output with a block in it is not the not-found message. *)
Lemma search_output_not_found (keyword : string) (resume_data : ResumeData)
  (p e x s j : bool) :
  search_output keyword resume_data p e x s j = Ok (not_found keyword) ->
  p = false /\ e = false /\ x = false /\ s = false /\ j = false.
Proof.
  unfold search_output. intros H. do 5 bind_ok H.
  repeat match goal with
         | E : section_block _ _ _ = Ok _ |- _ =>
             apply block_shape in E; destruct E as [[-> ->] | [-> [? ->]]]
         end;
    try (repeat split; reflexivity);
    exfalso; vm_compute in H; discriminate H.
Qed.

(** X8. For a keyword that is not blank, on a document whose summary is
    absent or a string, [search_resume] answers with the not-found message
    exactly when the keyword occurs (ignoring case) in none of the texts
    it examines. *)
Theorem search_not_found_iff (keyword : string) (resume_data : ResumeData) :
  blank keyword = false ->
  summary_is_text resume_data = true ->
  search_resume keyword resume_data = Ok (not_found keyword)
  <-> occurs_nowhere keyword resume_data = true.
Proof.
  intros B T. rewrite (search_resume_blocks _ _ B T). split.
  - intros H. apply search_output_not_found in H as (P & E & X & S & J).
    now apply no_hit_nothing_scanned.
  - intros N. destruct (nothing_scanned_no_hit _ _ N) as (P & S & E & X & K & J).
    rewrite P, S, E, X, K, J. reflexivity.
Qed.

Lemma search_not_found_iff_witness :
  occurs_nowhere "NonexistentKeyword" SAMPLE_RESUME_DATA = true
  /\ search_resume "Python" SAMPLE_RESUME_DATA <> Ok (not_found "Python").
Proof.
  split.
  - apply (search_not_found_iff "NonexistentKeyword" SAMPLE_RESUME_DATA);
      reflexivity.
  - intros H.
    apply (search_not_found_iff "Python" SAMPLE_RESUME_DATA) in H;
      [vm_compute in H; discriminate H | reflexivity | reflexivity].
Defined.

(** X9. On a document whose section is empty each filtered accessor
    returns the empty text, whatever the filter. *)
Theorem accessors_on_empty_sections
  (query : option string) (resume_data : ResumeData) :
  (education resume_data = [] -> get_education query resume_data = Ok "")
  /\ (experience resume_data = [] -> get_experience query resume_data = Ok "")
  /\ (skills resume_data = [] -> get_skills query resume_data = Ok "")
  /\ (projects resume_data = [] -> get_projects query resume_data = Ok "").
Proof.
  unfold get_education, get_experience, get_skills, get_projects.
  repeat split; intros ->; destruct query as [q|]; try reflexivity;
    destruct (given (Some q)); reflexivity.
Qed.

Lemma accessors_on_empty_sections_witness :
  get_experience (Some "python") two_schools = Ok "".
Proof.
  apply (accessors_on_empty_sections (Some "python") two_schools). reflexivity.
Defined.

(** The lines of a rendered entry that list its accomplishments. *)
Lemma render_exp_bullets (exp : pydict) (bullets : list string)
  (desc text : string) :
  render_exp exp = Ok text ->
  lookup exp "description" = Some (VList bullets) ->
  In desc bullets ->
  contains (bullet ++ " " ++ desc) text = true.
Proof.
  unfold render_exp. intros H Hd Hin. do 5 bind_ok H.
  unfold getitem in H at 1. rewrite Hd in H. simpl bind in H. bind_ok H.
  repeat match goal with
         | E : opt_line _ _ _ _ = Ok _ |- _ =>
             apply opt_line_extends in E; destruct E as [? ->]
         | E : opt_joined _ _ _ _ = Ok _ |- _ =>
             apply opt_joined_extends in E; destruct E as [? ->]
         end.
  injection H as <-. rewrite fold_append_extends.
  eapply contains_in_join; [|apply contains_refl].
  apply in_or_app. left. apply in_or_app. right.
  now apply (in_map (fun d => bullet ++ " " ++ d)).
Qed.

(** X10. When every experience entry follows the schema, the text of
    [get_experience] lists every accomplishment of every entry, each
    after the bullet mark. *)
Theorem get_experience_lists_every_accomplishment
  (resume_data : ResumeData) (exp : pydict) (bullets : list string)
  (desc : string) :
  forallb valid_exp (experience resume_data) = true ->
  In exp (experience resume_data) ->
  lookup exp "description" = Some (VList bullets) ->
  In desc bullets ->
  exists text,
    get_experience None resume_data = Ok text
    /\ contains (bullet ++ " " ++ desc) text = true.
Proof.
  intros V Hin Hd Hb.
  destruct (render_experience_total _ V) as [text E].
  exists text. split; [exact E|].
  unfold render_experience in E.
  destruct (mapM render_exp (experience resume_data)) as [texts|] eqn:M;
    simpl in E; [|discriminate].
  injection E as <-.
  destruct (mapM_in _ _ _ _ M Hin) as (t & Rt & Ht).
  apply (contains_in_join _ _ t); [exact Ht|].
  exact (render_exp_bullets _ _ _ _ Rt Hd Hb).
Qed.

Lemma get_experience_lists_every_accomplishment_witness :
  exists text,
    get_experience None SAMPLE_RESUME_DATA = Ok text
    /\ contains (bullet ++ " Led team projects") text = true.
Proof.
  apply (get_experience_lists_every_accomplishment SAMPLE_RESUME_DATA
           [ ("company", VStr "Test Corp");
             ("position", VStr "Software Engineer");
             ("start_date", VStr "2020-06");
             ("end_date", VNone);
             ("description", VList ["Built test applications"; "Led team projects"]);
             ("technologies", VList ["Python"; "JavaScript"]) ]
           ["Built test applications"; "Led team projects"]
           "Led team projects");
    first [reflexivity | now left | (right; now left)].
Defined.

(** A header and the text after it stay together in the joined output. *)
Lemma join_keeps_pair (sep header text : string) (before after : list string) :
  contains (header ++ sep ++ text)
    (PyStr.join sep (app before (header :: text :: after))) = true.
Proof.
  induction before as [|x before IH].
  - simpl app. rewrite (join_cons sep header), (join_cons sep text).
    match goal with
    | |- contains _ (header ++ sep ++ text ++ ?r) = true =>
        replace (header ++ sep ++ text ++ r)
          with ((header ++ sep ++ text) ++ r)
          by (now rewrite !append_assoc)
    end.
    apply contains_prefix, prefix_append.
  - simpl app. rewrite join_cons.
    destruct (app before (header :: text :: after)) eqn:E.
    + now destruct before.
    + now apply contains_append_l, contains_append_l.
Qed.

Lemma block_true (header : string) (rendering : result string)
  (block : list string) :
  section_block true header rendering = Ok block ->
  exists text, rendering = Ok text /\ block = [header; text].
Proof.
  unfold section_block. destruct rendering as [text|]; simpl; [|discriminate].
  intros [= <-]. now exists text.
Qed.

Lemma joined_results (keyword : string) (results : list string) (text : string) :
  results <> [] ->
  match results with
  | [] => Ok (not_found keyword)
  | first :: rest => Ok (PyStr.join (nl ++ nl) (first :: rest))
  end = Ok text ->
  text = PyStr.join (nl ++ nl) results.
Proof. destruct results; [now intros N | now intros _ [= <-]]. Qed.

Ltac bind_step H :=
  match type of H with
  | bind ?m _ = Ok _ =>
      let E := fresh "E" in
      destruct m eqn:E; cbn [bind] in H; [|discriminate H]
  end.

(** In the output, every appended section is its header, a blank line,
    and the accessor's unfiltered text. *)
Lemma search_output_has_blocks (keyword : string) (resume_data : ResumeData)
  (p e x s j : bool) (text : string) :
  search_output keyword resume_data p e x s j = Ok text ->
  let shown header rendering :=
    exists t, rendering = Ok t
              /\ contains (header ++ (nl ++ nl) ++ t) text = true in
  (p = true -> shown "PERSONAL INFO:" (get_personal_info None resume_data))
  /\ (e = true -> shown "EDUCATION:" (get_education None resume_data))
  /\ (x = true -> shown "EXPERIENCE:" (get_experience None resume_data))
  /\ (s = true -> shown "SKILLS:" (get_skills None resume_data))
  /\ (j = true -> shown "PROJECTS:" (get_projects None resume_data)).
Proof.
  unfold search_output. intros H. do 5 bind_step H. cbv zeta.
  repeat split; intros ->;
    match goal with
    | E : section_block true _ _ = Ok _ |- _ =>
        apply block_true in E; destruct E as (t & Et & ->)
    end;
    exists t; (split; [exact Et|]);
    apply joined_results in H;
    try (intros N; repeat (apply app_eq_nil in N; destruct N as [? N]);
         discriminate);
    subst text.
  - apply (join_keeps_pair _ _ _ []).
  - apply join_keeps_pair.
  - rewrite app_assoc. apply join_keeps_pair.
  - rewrite 2 app_assoc. apply join_keeps_pair.
  - rewrite 3 app_assoc.
    rewrite <- (app_nil_r [_; t]) at 1. apply join_keeps_pair.
Qed.

(** X11. When [search_resume] returns a text for a keyword that is not
    blank and is plain (printable characters, no backslash, no single
    quote), on a document whose summary is absent or a string, then for
    every section that has a field the keyword occurs in, the text has
    that section's header label followed, after a blank line, by the full
    text of the section's accessor called without filter. *)
Theorem search_text_shows_matched_sections
  (keyword : string) (resume_data : ResumeData) (text : string) :
  blank keyword = false ->
  plain keyword = true ->
  summary_is_text resume_data = true ->
  search_resume keyword resume_data = Ok text ->
  let shown header rendering :=
    exists t, rendering = Ok t
              /\ contains (header ++ (nl ++ nl) ++ t) text = true in
  (personal_matches keyword resume_data = true ->
   shown "PERSONAL INFO:" (get_personal_info None resume_data))
  /\ (entries_match keyword (education resume_data) = true ->
      shown "EDUCATION:" (get_education None resume_data))
  /\ (entries_match keyword (experience resume_data) = true ->
      shown "EXPERIENCE:" (get_experience None resume_data))
  /\ (skills_match keyword resume_data = true ->
      shown "SKILLS:" (get_skills None resume_data))
  /\ (entries_match keyword (projects resume_data) = true ->
      shown "PROJECTS:" (get_projects None resume_data)).
Proof.
  intros B Hp T H. rewrite (search_resume_blocks _ _ B T) in H.
  destruct (search_output_has_blocks _ _ _ _ _ _ _ _ H) as (P & E & X & S & J).
  cbv zeta. repeat split; intros M.
  - apply P. unfold personal_matches in M. rewrite orb_true_iff in *.
    destruct M as [M | M].
    + left. revert M. apply existsb_impl. intros v _ Hv.
      now apply in_field_hit.
    + right. now apply (in_field_hit _ _ Hp).
  - apply E. revert M. unfold entries_match. apply existsb_impl.
    intros edu _. now apply entry_fields_hit_edu.
  - apply X. revert M. unfold entries_match. apply existsb_impl.
    intros entry _. now apply entry_fields_hit_text.
  - apply S. exact M.
  - apply J. revert M. unfold entries_match. apply existsb_impl.
    intros entry _. now apply entry_fields_hit_text.
Qed.

Lemma search_text_shows_matched_sections_witness :
  exists text t,
    search_resume "Python" SAMPLE_RESUME_DATA = Ok text
    /\ get_skills None SAMPLE_RESUME_DATA = Ok t
    /\ contains ("SKILLS:" ++ (nl ++ nl) ++ t) text = true.
Proof.
  destruct (search_resume "Python" SAMPLE_RESUME_DATA) as [text|] eqn:E;
    [|vm_compute in E; discriminate E].
  destruct (search_text_shows_matched_sections "Python" SAMPLE_RESUME_DATA text
              eq_refl eq_refl eq_refl E) as (_ & _ & _ & S & _).
  destruct (S eq_refl) as (t & Et & C).
  exists text, t. repeat split; [exact Et | exact C].
Defined.

(* ===================================================================== *)
(** ** Further properties of the conversational agent                     *)
(* ===================================================================== *)

Lemma history_after_chat (self : ResumeAgent) (message session_id : string) :
  get_session_history (snd (chat self message session_id)) session_id
  = app (get_session_history self session_id)
      [ history_entry_of (HumanMessage message);
        history_entry_of (AIMessage (fst (chat self message session_id))) ].
Proof.
  rewrite !history_is_transcript, transcript_after_chat, map_app. reflexivity.
Qed.

(** X12. Whatever the external call does - return an answer, return a
    result without [output], or raise - one [chat] turn returns a text and
    appends exactly two entries to the session's history: an entry of type
    [human] whose content is the input, then an entry of type [ai] whose
    content is the returned text; in the transcript these are a human
    message and an assistant message. *)
Theorem chat_always_records_the_turn
  (self : ResumeAgent) (message session_id : string) :
  let response := fst (chat self message session_id) in
  let self' := snd (chat self message session_id) in
  response
  = answer_of (ainvoke (agent_executor self) message
                 (transcript self session_id))
  /\ get_session_history self' session_id
     = app (get_session_history self session_id)
         [ {| entry_type := "human"; entry_content := message;
              entry_timestamp := None |};
           {| entry_type := "ai"; entry_content := response;
              entry_timestamp := None |} ]
  /\ transcript self' session_id
     = app (transcript self session_id)
         [HumanMessage message; AIMessage response]
  /\ length (get_session_history self' session_id)
     = length (get_session_history self session_id) + 2
  /\ agent_executor self' = agent_executor self.
Proof.
  cbv zeta.
  destruct (chat_turn self message session_id) as (A & _ & E & _).
  pose proof (history_after_chat self message session_id) as H.
  split; [exact A|]. split; [exact H|].
  split; [apply transcript_after_chat|]. split; [|exact E].
  rewrite H, length_app. reflexivity.
Qed.

Lemma chat_always_records_the_turn_witness :
  let self' := snd (chat (busy_agent failing) "Test message" "s1") in
  fst (chat (busy_agent failing) "Test message" "s1")
  = chat_error_msg "Test error"
  /\ map entry_type (get_session_history self' "s1")
     = ["human"; "ai"; "human"; "ai"]
  /\ map entry_content (get_session_history self' "s1")
     = ["Test question"; "Test answer"; "Test message";
        chat_error_msg "Test error"].
Proof.
  cbv zeta.
  destruct (chat_always_records_the_turn (busy_agent failing) "Test message" "s1")
    as (A & H & _).
  cbv zeta in A, H. rewrite H, A. vm_compute. repeat split.
Defined.

(** X13. When the external stream raises after some chunks, [stream_chat]
    has yielded the chunks received so far followed by one fragment with
    the error text, which contains the error detail; the session's
    transcript gains the input and the error text only, not the fragments
    yielded before. *)
Theorem stream_failure_records_only_the_error
  (self : ResumeAgent) (message session_id detail : string) :
  failure (astream (agent_executor self) message (transcript self session_id))
  = Some detail ->
  let stream :=
    astream (agent_executor self) message (transcript self session_id) in
  let fragments := fst (stream_chat self message session_id) in
  let self' := snd (stream_chat self message session_id) in
  fragments = app (outputs (chunks stream)) [stream_error_msg detail]
  /\ transcript self' session_id
     = app (transcript self session_id)
         [HumanMessage message; AIMessage (stream_error_msg detail)]
  /\ contains detail (stream_error_msg detail) = true.
Proof.
  intros F. cbv zeta.
  pose proof (stream_chat_turn self message session_id) as S.
  cbv zeta in S. rewrite F in S. destruct S as [Hf Ht].
  repeat split; [exact Hf | exact Ht |].
  unfold stream_error_msg. apply contains_middle.
Qed.

Lemma stream_failure_records_only_the_error_witness :
  fst (stream_chat (busy_agent MoreExamples.breaking) "Test message" "s1")
  = ["Hello "; "there"; "I encountered an error: Connection lost. Please try again."]
  /\ transcript (snd (stream_chat (busy_agent MoreExamples.breaking) "Test message" "s1")) "s1"
     = [ HumanMessage "Test question"; AIMessage "Test answer";
         HumanMessage "Test message";
         AIMessage "I encountered an error: Connection lost. Please try again." ].
Proof.
  destruct (stream_failure_records_only_the_error (busy_agent MoreExamples.breaking)
              "Test message" "s1" "Connection lost" eq_refl) as (Hf & Ht & _).
  split; [rewrite Hf | rewrite Ht]; reflexivity.
Defined.

(** X14. [clear_memory] forgets the session: its history is empty
    afterwards, clearing again changes nothing, and the next [chat] on
    the session starts a transcript of exactly that one turn: the human
    message with the input, then the assistant message with the returned
    text, listed by the history as an entry of type [human] and an entry
    of type [ai] with those contents. *)
Theorem clear_memory_forgets_the_session
  (self : ResumeAgent) (session_id message : string) :
  let cleared := clear_memory self session_id in
  let response := fst (chat cleared message session_id) in
  get_session_history cleared session_id = []
  /\ transcript cleared session_id = []
  /\ clear_memory cleared session_id = cleared
  /\ transcript (snd (chat cleared message session_id)) session_id
     = [HumanMessage message; AIMessage response]
  /\ get_session_history (snd (chat cleared message session_id)) session_id
     = [ {| entry_type := "human"; entry_content := message;
            entry_timestamp := None |};
         {| entry_type := "ai"; entry_content := response;
            entry_timestamp := None |} ].
Proof.
  cbv zeta.
  pose proof (clear_memory_here self session_id) as L.
  assert (E : get_session_history (clear_memory self session_id) session_id = [])
    by (unfold get_session_history; now rewrite L).
  assert (T : transcript (clear_memory self session_id) session_id = [])
    by (unfold transcript; now rewrite L).
  split; [exact E|]. split; [exact T|]. split; [|split].
  - unfold clear_memory at 1. now rewrite L.
  - rewrite transcript_after_chat, T. reflexivity.
  - rewrite history_is_transcript, transcript_after_chat, T. reflexivity.
Qed.

Lemma clear_memory_forgets_the_session_witness :
  let cleared := clear_memory (busy_agent answering) "s1" in
  get_session_history (busy_agent answering) "s1" <> []
  /\ get_session_history cleared "s1" = []
  /\ map entry_type
       (get_session_history (snd (chat cleared "New question" "s1")) "s1")
     = ["human"; "ai"]
  /\ map entry_content
       (get_session_history (snd (chat cleared "New question" "s1")) "s1")
     = ["New question"; "Answer to: New question"].
Proof.
  cbv zeta.
  destruct (clear_memory_forgets_the_session (busy_agent answering) "s1"
              "New question") as (E & _ & _ & _ & H).
  cbv zeta in H. rewrite E, H. vm_compute. repeat split. discriminate.
Defined.

(** X15. [_get_or_create_memory] is idempotent: it returns the stored
    messages of the session, an empty list for an unseen id, a second call
    returns the same messages and leaves the agent as the first call left
    it, and no session's history is changed by either call. *)
Theorem get_or_create_memory_is_idempotent
  (self : ResumeAgent) (session_id : string) :
  let memory := fst (_get_or_create_memory self session_id) in
  let self' := snd (_get_or_create_memory self session_id) in
  memory = transcript self session_id
  /\ _get_or_create_memory self' session_id = (memory, self')
  /\ (forall other,
        get_session_history self' other = get_session_history self other).
Proof.
  cbv zeta. unfold _get_or_create_memory, transcript.
  destruct (memory_store self !! session_id) as [memory|] eqn:L; simpl.
  - rewrite L. auto.
  - rewrite lookup_insert_eq. repeat split.
    intros other. unfold get_session_history. simpl.
    destruct (decide (other = session_id)) as [-> | Hne].
    + now rewrite lookup_insert_eq, L.
    + now rewrite lookup_insert_ne.
Qed.

Lemma stream_chat_elsewhere (self : ResumeAgent)
  (message session_id other : string) :
  other <> session_id ->
  memory_store (snd (stream_chat self message session_id)) !! other
  = memory_store self !! other.
Proof.
  intros Hne. unfold stream_chat.
  pose proof (get_or_create_memory self session_id) as G.
  destruct (_get_or_create_memory self session_id) as [memory self1].
  destruct G as (_ & L & _ & F).
  destruct (failure _); cbv zeta; simpl snd;
    rewrite !add_message_elsewhere by exact Hne; now apply F.
Qed.

(** X16. Sessions are isolated: a [chat] turn, a streaming turn, or any
    run of [chat] turns on one session leaves the history of every other
    session as it was. *)
Theorem sessions_are_isolated
  (self : ResumeAgent) (session_id other message : string)
  (messages : list string) :
  other <> session_id ->
  get_session_history (snd (chat self message session_id)) other
  = get_session_history self other
  /\ get_session_history (snd (stream_chat self message session_id)) other
     = get_session_history self other
  /\ get_session_history (snd (chats self session_id messages)) other
     = get_session_history self other.
Proof.
  intros Hne. repeat split.
  - rewrite !history_is_transcript. f_equal.
    now apply transcript_elsewhere_after_chat.
  - unfold get_session_history. now rewrite stream_chat_elsewhere.
  - rewrite !history_is_transcript. f_equal.
    revert self. induction messages as [|m rest IH]; intros self; simpl;
      [reflexivity|].
    pose proof (transcript_elsewhere_after_chat self m session_id other Hne) as T.
    destruct (chat self m session_id) as [response self1]. simpl in T.
    specialize (IH self1).
    destruct (chats self1 session_id rest) as [responses self2]. simpl in *.
    now rewrite IH.
Qed.

Lemma sessions_are_isolated_witness :
  get_session_history
    (snd (chats (busy_agent answering) "s2" ["First question"; "Second question"]))
    "s1"
  = get_session_history (busy_agent answering) "s1".
Proof.
  apply (sessions_are_isolated (busy_agent answering) "s2" "s1" ""
           ["First question"; "Second question"]).
  discriminate.
Defined.

(* ===================================================================== *)
(** ** Further properties of the routes                                   *)
(* ===================================================================== *)

Import Routes.

(** Validation accepts exactly the well-formed bodies, and hands the
    endpoint the message and the session the body asks for. *)
Lemma validate_well_formed (datetime_ok : Api.json -> bool)
  (body : list (string * Api.json)) (uuid4 : string) :
  well_formed_body datetime_ok body = true ->
  exists chat_message,
    Api.validate datetime_ok body = inl chat_message
    /\ Api.field body "message" = Some (Api.JString (Api.message chat_message))
    /\ Api.session_or (Api.session_id chat_message) uuid4
       = requested_session body uuid4.
Proof.
  unfold well_formed_body, optional_str_ok, requested_session, Api.validate,
    Api.required_str, Api.optional_str, Api.defaulted_datetime.
  destruct (Api.field body "message") as [[| m |]|]; simpl; try discriminate.
  destruct (Api.field body "session_id") as [[| s |]|]; simpl; try discriminate;
    (destruct (Api.field body "origin") as [[| o |]|]; simpl; try discriminate);
    (destruct (Api.field body "timestamp") as [t|];
     [destruct (datetime_ok t); simpl; try discriminate|]);
    intros _; eexists; repeat split.
Qed.

Lemma validate_ill_formed (datetime_ok : Api.json -> bool)
  (body : list (string * Api.json)) :
  well_formed_body datetime_ok body = false ->
  exists errors, Api.validate datetime_ok body = inr errors.
Proof.
  unfold well_formed_body, optional_str_ok, Api.validate,
    Api.required_str, Api.optional_str, Api.defaulted_datetime.
  destruct (Api.field body "message") as [[| m |]|];
    destruct (Api.field body "session_id") as [[| s |]|];
    destruct (Api.field body "origin") as [[| o |]|];
    (destruct (Api.field body "timestamp") as [t|];
     [destruct (datetime_ok t)|]);
    simpl; try discriminate; intros _; eexists; reflexivity.
Qed.

(** The three answers of [POST /api/chat]. *)
Lemma post_chat_cases
  (debug : bool) (datetime_ok : Api.json -> bool)
  (body : list (string * Api.json)) (uuid4 : string) (agent : ResumeAgent) :
  let reply := Api.post_chat debug datetime_ok body uuid4 agent in
  let session_id := requested_session body uuid4 in
  (well_formed_body datetime_ok body = false ->
   Api.status_code (fst reply) = 422%N /\ snd reply = agent)
  /\ (well_formed_body datetime_ok body = true ->
      forall message,
        Api.field body "message" = Some (Api.JString message) ->
        if nonempty message
        then reply
             = ({| Api.status_code := 200;
                   Api.body :=
                     Api.ChatResponse (fst (chat agent message session_id))
                       ["resume_data"] (Some session_id) |},
                snd (chat agent message session_id))
        else reply
             = ({| Api.status_code := 400;
                   Api.body := Api.Detail "Message field is required" |},
                agent)).
Proof.
  cbv zeta. unfold Api.post_chat. split.
  - intros W. destruct (validate_ill_formed _ _ W) as [errors ->].
    split; reflexivity.
  - intros W message Hm.
    destruct (validate_well_formed _ _ uuid4 W) as (cm & -> & Hf & Hs).
    rewrite Hm in Hf. injection Hf as Hf. unfold Api.chat_endpoint.
    rewrite <- Hf, Hs. destruct (nonempty message); simpl; [|reflexivity].
    now destruct (chat agent message (requested_session body uuid4)).
Qed.


(** X17. [POST /api/chat] answers 422 to every body that is not
    well-formed and 400 to a well-formed body whose message is empty, in
    both cases without touching the agent; to any other body it answers
    200 with the text [chat] returns for the message, the source
    [resume_data] and the session the turn was stored under, which is the
    body's [session_id] when that is a non-empty string and the generated
    identifier otherwise. *)
Theorem post_chat_answers
  (debug : bool) (datetime_ok : Api.json -> bool)
  (body : list (string * Api.json)) (uuid4 : string) (agent : ResumeAgent) :
  let reply := Api.post_chat debug datetime_ok body uuid4 agent in
  let session_id := requested_session body uuid4 in
  (well_formed_body datetime_ok body = false ->
   Api.status_code (fst reply) = 422%N /\ snd reply = agent)
  /\ (well_formed_body datetime_ok body = true ->
      forall message,
        Api.field body "message" = Some (Api.JString message) ->
        if nonempty message
        then reply
             = ({| Api.status_code := 200;
                   Api.body :=
                     Api.ChatResponse (fst (chat agent message session_id))
                       ["resume_data"] (Some session_id) |},
                snd (chat agent message session_id))
        else reply
             = ({| Api.status_code := 400;
                   Api.body := Api.Detail "Message field is required" |},
                agent)).
Proof. exact (post_chat_cases debug datetime_ok body uuid4 agent). Qed.

Lemma post_chat_answers_witness :
  Api.post_chat false (fun _ => true) [("message", Api.JString "Test question")]
    "generated-id" (new_agent answering)
  = ({| Api.status_code := 200;
        Api.body :=
          Api.ChatResponse
            (fst (chat (new_agent answering) "Test question" "generated-id"))
            ["resume_data"] (Some "generated-id") |},
     snd (chat (new_agent answering) "Test question" "generated-id")).
Proof.
  destruct (post_chat_answers false (fun _ => true)
              [("message", Api.JString "Test question")]
              "generated-id" (new_agent answering)) as [_ K].
  apply (K eq_refl "Test question" eq_refl).
Defined.

(** X18. After an accepted [POST /api/chat], [GET /api/chat/history] for
    the session named in the reply lists two more messages than before:
    an entry of type [human] whose content is the request's message, then
    an entry of type [ai] whose content is the reply's text, which is the
    text the [chat] turn returned. *)
Theorem history_after_post_chat
  (debug : bool) (datetime_ok : Api.json -> bool)
  (body : list (string * Api.json)) (uuid4 message : string)
  (agent : ResumeAgent) :
  well_formed_body datetime_ok body = true ->
  Api.field body "message" = Some (Api.JString message) ->
  nonempty message = true ->
  let reply := Api.post_chat debug datetime_ok body uuid4 agent in
  let session_id := requested_session body uuid4 in
  exists response,
    Api.body (fst reply)
    = Api.ChatResponse response ["resume_data"] (Some session_id)
    /\ response
       = answer_of (ainvoke (agent_executor agent) message
                      (transcript agent session_id))
    /\ messages (get_chat_history session_id (snd reply))
       = app (messages (get_chat_history session_id agent))
           [ {| entry_type := "human"; entry_content := message;
                entry_timestamp := None |};
             {| entry_type := "ai"; entry_content := response;
                entry_timestamp := None |} ]
    /\ total_messages (get_chat_history session_id (snd reply))
       = total_messages (get_chat_history session_id agent) + 2.
Proof.
  intros W Hm Hn. cbv zeta.
  destruct (post_chat_cases debug datetime_ok body uuid4 agent) as [_ K].
  specialize (K W message Hm). rewrite Hn in K. rewrite K. simpl fst. simpl snd.
  exists (fst (chat agent message (requested_session body uuid4))).
  pose proof (history_after_chat agent message (requested_session body uuid4))
    as H.
  destruct (chat_turn agent message (requested_session body uuid4))
    as (A & _).
  unfold get_chat_history. simpl. rewrite H, length_app. auto.
Qed.

Lemma history_after_post_chat_witness :
  let reply :=
    Api.post_chat false (fun _ => true)
      [ ("message", Api.JString "New question");
        ("session_id", Api.JString "s1") ]
      "generated-id" (busy_agent answering) in
  Api.body (fst reply)
  = Api.ChatResponse "Answer to: New question" ["resume_data"] (Some "s1")
  /\ messages (get_chat_history "s1" (snd reply))
     = [ {| entry_type := "human"; entry_content := "Test question";
            entry_timestamp := None |};
         {| entry_type := "ai"; entry_content := "Test answer";
            entry_timestamp := None |};
         {| entry_type := "human"; entry_content := "New question";
            entry_timestamp := None |};
         {| entry_type := "ai"; entry_content := "Answer to: New question";
            entry_timestamp := None |} ]
  /\ total_messages (get_chat_history "s1" (snd reply)) = 4.
Proof.
  cbv zeta.
  destruct (history_after_post_chat false (fun _ => true)
              [ ("message", Api.JString "New question");
                ("session_id", Api.JString "s1") ]
              "generated-id" "New question" (busy_agent answering)
              eq_refl eq_refl eq_refl) as (response & B & A & M & T).
  cbv zeta in B, A, M, T. subst response. split; [|split].
  - etransitivity; [exact B|]. vm_compute. reflexivity.
  - etransitivity; [exact M|]. vm_compute. reflexivity.
  - etransitivity; [exact T|]. vm_compute. reflexivity.
Defined.

Lemma transcript_after_stream_chat (self : ResumeAgent)
  (message session_id : string) :
  exists answer,
    transcript (snd (stream_chat self message session_id)) session_id
    = app (transcript self session_id)
        [HumanMessage message; AIMessage answer].
Proof.
  pose proof (stream_chat_turn self message session_id) as S. cbv zeta in S.
  destruct (failure _); destruct S as [_ T]; eexists; exact T.
Qed.

(** X19. [POST /api/chat/stream] rejects like [POST /api/chat]: 422 for a
    body that is not well-formed, 400 for an empty message, the agent
    untouched.  Any other body gets a [text/plain] streaming response
    whose [X-Session-ID] header names the session the turn is stored
    under, with caching disabled; its records are the fragments
    [stream_chat] yields, each marked not complete, followed by one final
    record that is complete, has empty content and the source
    [resume_data]; and the session's transcript has grown by the request's
    message and one assistant message. *)
Theorem post_chat_stream_answers
  (debug : bool) (datetime_ok : Api.json -> bool)
  (body : list (string * Api.json)) (uuid4 : string) (agent : ResumeAgent) :
  let reply := post_chat_stream debug datetime_ok body uuid4 agent in
  let session_id := requested_session body uuid4 in
  (well_formed_body datetime_ok body = false ->
   exists response,
     fst reply = Rejected response /\ Api.status_code response = 422%N
     /\ snd reply = agent)
  /\ (well_formed_body datetime_ok body = true ->
      forall message,
        Api.field body "message" = Some (Api.JString message) ->
        if nonempty message
        then exists headers records answer,
               fst reply = StreamingResponse "text/plain" headers records
               /\ header headers "X-Session-ID" = Some session_id
               /\ header headers "Cache-Control" = Some "no-cache"
               /\ records
                  = app
                      (map (fun fragment =>
                              {| Api.chunk_content := fragment;
                                 Api.is_complete := false;
                                 Api.chunk_sources := None |})
                         (fst (stream_chat agent message session_id)))
                      [ {| Api.chunk_content := "";
                           Api.is_complete := true;
                           Api.chunk_sources := Some ["resume_data"] |} ]
               /\ transcript (snd reply) session_id
                  = app (transcript agent session_id)
                      [HumanMessage message; AIMessage answer]
        else fst reply
             = Rejected {| Api.status_code := 400;
                           Api.body := Api.Detail "Message field is required" |}
             /\ snd reply = agent).
Proof.
  cbv zeta. unfold post_chat_stream. split.
  - intros W. destruct (validate_ill_formed _ _ W) as [errors ->].
    eexists. repeat split.
  - intros W message Hm.
    destruct (validate_well_formed _ _ uuid4 W) as (cm & -> & Hf & Hs).
    rewrite Hm in Hf. injection Hf as Hf. unfold stream_chat_endpoint.
    rewrite <- Hf, Hs. destruct (nonempty message); simpl; [|now split].
    unfold Api.stream_chat_response.
    destruct (transcript_after_stream_chat agent message
                (requested_session body uuid4)) as [answer T].
    destruct (stream_chat agent message (requested_session body uuid4))
      as [fragments agent'].
    simpl in *. do 3 eexists. repeat split. exact T.
Qed.

Lemma post_chat_stream_answers_witness :
  exists headers records,
    fst (post_chat_stream false (fun _ => true)
           [("message", Api.JString "Test streaming question")]
           "generated-id" (new_agent answering))
    = StreamingResponse "text/plain" headers records
    /\ header headers "X-Session-ID" = Some "generated-id".
Proof.
  destruct (post_chat_stream_answers false (fun _ => true)
              [("message", Api.JString "Test streaming question")]
              "generated-id" (new_agent answering)) as [_ K].
  destruct (K eq_refl "Test streaming question" eq_refl)
    as (headers & records & answer & R & H & _).
  exists headers, records. split; [exact R | exact H].
Defined.

Lemma contains_at_end (sub before : string) :
  contains sub (before ++ sub) = true.
Proof. apply contains_append_l, contains_refl. Qed.

(** X20. [DELETE /api/chat/history/{id}] always confirms, naming the
    session, also for a session that never existed; afterwards
    [GET /api/chat/history/{id}] reports no messages, a second delete
    changes nothing, and every other session's history is reported as
    before. *)
Theorem delete_history_is_idempotent
  (session_id : string) (agent : ResumeAgent) :
  let confirmation := fst (clear_chat_history session_id agent) in
  let agent' := snd (clear_chat_history session_id agent) in
  cleared_session_id confirmation = session_id
  /\ contains session_id (cleared_message confirmation) = true
  /\ messages (get_chat_history session_id agent') = []
  /\ total_messages (get_chat_history session_id agent') = 0
  /\ clear_chat_history session_id agent' = (confirmation, agent')
  /\ (forall other, other <> session_id ->
        get_chat_history other agent' = get_chat_history other agent).
Proof.
  cbv zeta. unfold clear_chat_history, get_chat_history.
  cbn [fst snd cleared_session_id cleared_message messages total_messages].
  pose proof (clear_memory_here agent session_id) as L.
  assert (E : get_session_history (clear_memory agent session_id) session_id = [])
    by (unfold get_session_history; now rewrite L).
  rewrite E. repeat split.
  - apply contains_at_end.
  - f_equal. unfold clear_memory at 1. now rewrite L.
  - intros other Hne.
    assert (F : get_session_history (clear_memory agent session_id) other
                = get_session_history agent other).
    { unfold get_session_history.
      now rewrite (clear_memory_elsewhere agent session_id other Hne). }
    now rewrite F.
Qed.

Lemma delete_history_is_idempotent_witness :
  get_chat_history "s1" (snd (clear_chat_history "s2" (busy_agent answering)))
  = get_chat_history "s1" (busy_agent answering).
Proof.
  destruct (delete_history_is_idempotent "s2" (busy_agent answering))
    as (_ & _ & _ & _ & _ & F).
  apply F. discriminate.
Defined.

(* ===================================================================== *)
(** ** The global instance and the loader                                 *)
(* ===================================================================== *)

Import Singleton Loader.

(** X21. [get_resume_agent] builds the agent once: a call that returns an
    agent leaves that agent in the module variable, and every later call
    returns the same agent, transcripts included, whatever the
    environment then says; a new agent has no history for any session;
    and while [OPENAI_API_KEY] is unset or empty every call fails with the
    same error and leaves the variable empty. *)
Theorem get_resume_agent_is_a_singleton
  (_agent_instance : option ResumeAgent) (api_key : option string)
  (executor : AgentExecutor) :
  (forall agent instance',
     get_resume_agent _agent_instance api_key executor = (inl agent, instance') ->
     instance' = Some agent
     /\ (forall api_key' executor',
           get_resume_agent instance' api_key' executor'
           = (inl agent, instance'))
     /\ (_agent_instance = None ->
         forall session_id, get_session_history agent session_id = []))
  /\ (_agent_instance = None ->
      match api_key with Some key => nonempty key | None => false end = false ->
      get_resume_agent _agent_instance api_key executor
      = (inr missing_key_error, None)).
Proof.
  unfold get_resume_agent, __init__. split.
  - intros agent instance' H.
    destruct _agent_instance as [existing|].
    + injection H as <- <-. repeat split. discriminate.
    + destruct api_key as [key|]; [destruct (nonempty key)|];
        try discriminate H.
      injection H as <- <-. repeat split.
  - intros -> K. destruct api_key as [key|]; [rewrite K|]; reflexivity.
Qed.

Lemma get_resume_agent_is_a_singleton_witness :
  get_resume_agent (Some (busy_agent answering)) None failing
  = (inl (busy_agent answering), Some (busy_agent answering))
  /\ get_resume_agent None (Some "") answering = (inr missing_key_error, None).
Proof.
  destruct (get_resume_agent_is_a_singleton (Some (busy_agent answering))
              (Some "test-key-123") answering) as [S _].
  destruct (S (busy_agent answering) (Some (busy_agent answering)) eq_refl)
    as (_ & Again & _).
  destruct (get_resume_agent_is_a_singleton None (Some "") answering) as [_ F].
  split; [apply (Again None failing) | apply F; reflexivity].
Defined.

Lemma prefix_append_r (sub s rest : string) :
  String.prefix sub s = true -> String.prefix sub (s ++ rest) = true.
Proof.
  intros H. destruct (prefix_split _ _ H) as [tail ->].
  rewrite append_assoc. apply prefix_append.
Qed.

(** X22. [load_resume_data] opens the path configured in
    [RESUME_DATA_PATH], or [./backend/data/resume.json] when none is
    configured.  An absolute path is opened as it is, whatever the working
    directory.  A relative one is joined to the working directory: the
    directory, a [/] unless the directory is empty or already ends in one,
    then the path.  So the path opened is absolute whenever the working
    directory is.  When no file is there it raises [FileNotFoundError]
    with the message [Resume data file not found at] followed by exactly
    the path it tried. *)
Theorem load_resume_data_resolves_the_path
  (env_path : option string) (cwd : string)
  (open_file : string -> open_outcome)
  (json_load : string -> ResumeData + string) :
  (isabs cwd = true -> isabs (resume_path env_path cwd) = true)
  /\ (forall path, env_path = Some path -> isabs path = true ->
        resume_path env_path cwd = path)
  /\ (open_file (resume_path env_path cwd) = NoSuchFile ->
      exists message,
        load_resume_data env_path cwd open_file json_load
        = inr (FileNotFoundError message)
        /\ contains (resume_path env_path cwd) message = true)
  /\ (forall path,
        env_path = Some path
        \/ (env_path = None /\ path = "./backend/data/resume.json") ->
        isabs path = false ->
        (nonempty cwd = true -> endswith_sep cwd = false ->
         resume_path env_path cwd = cwd ++ "/" ++ path)
        /\ (endswith_sep cwd = true -> resume_path env_path cwd = cwd ++ path)
        /\ (cwd = EmptyString -> resume_path env_path cwd = path))
  /\ (open_file (resume_path env_path cwd) = NoSuchFile ->
      load_resume_data env_path cwd open_file json_load
      = inr (FileNotFoundError
               ("Resume data file not found at " ++ resume_path env_path cwd))).
Proof.
  split; [|split; [|split; [|split]]].
  - intros Hc. unfold resume_path.
    destruct (isabs match env_path with Some p => p | None => default_path end)
      eqn:A; simpl; [exact A|].
    unfold path_join, isabs in *. rewrite A.
    destruct (negb (nonempty cwd) || endswith_sep cwd);
      now apply prefix_append_r.
  - intros path -> A. unfold resume_path. now rewrite A.
  - intros N. unfold load_resume_data. rewrite N.
    eexists. split; [reflexivity | apply contains_at_end].
  - intros path Hp A.
    assert (R : resume_path env_path cwd = path_join cwd path).
    { unfold resume_path.
      destruct Hp as [-> | [-> ->]]; [now rewrite A | reflexivity]. }
    rewrite R. unfold path_join. unfold isabs in A. rewrite A.
    split; [|split].
    + intros Hn He. now rewrite Hn, He.
    + intros He. rewrite He, orb_true_r. reflexivity.
    + intros ->. reflexivity.
  - intros N. unfold load_resume_data. now rewrite N.
Qed.

Lemma load_resume_data_resolves_the_path_witness :
  resume_path None "/srv/app" = "/srv/app/./backend/data/resume.json"
  /\ resume_path (Some "data/resume.json") "/srv/app/"
     = "/srv/app/data/resume.json"
  /\ resume_path (Some "/etc/resume.json") "/srv/app" = "/etc/resume.json"
  /\ load_resume_data None "/srv/app" (fun _ => NoSuchFile) (fun e => inr e)
     = inr (FileNotFoundError
              "Resume data file not found at /srv/app/./backend/data/resume.json").
Proof.
  destruct (load_resume_data_resolves_the_path None "/srv/app"
              (fun _ => NoSuchFile) (fun e => inr e))
    as (_ & _ & _ & D & M).
  destruct (D "./backend/data/resume.json" (or_intror (conj eq_refl eq_refl))
              eq_refl) as (D1 & _ & _).
  destruct (load_resume_data_resolves_the_path (Some "data/resume.json")
              "/srv/app/" (fun _ => NoSuchFile) (fun e => inr e))
    as (_ & _ & _ & R & _).
  destruct (R "data/resume.json" (or_introl eq_refl) eq_refl) as (_ & R2 & _).
  destruct (load_resume_data_resolves_the_path (Some "/etc/resume.json")
              "/srv/app" (fun _ => NoSuchFile) (fun e => inr e))
    as (_ & P & _).
  split; [exact (D1 eq_refl eq_refl)|].
  split; [exact (R2 eq_refl)|].
  split; [exact (P "/etc/resume.json" eq_refl eq_refl)|].
  rewrite (M eq_refl), (D1 eq_refl eq_refl). reflexivity.
Defined.
